(** * Cart pricing and checkout of the furniture e-commerce backend

    A shallow embedding of
    - models/cart.model.js           (schema and the pre-save hook),
    - controllers/cart.controller.js (formatProductData, getUserCart,
                                      addToCart, updateCart),
    - controllers/checkout.controller.js (placeOrder),
    - controllers/product.controller.js  (the price range),
    and of the order view of controllers/order.controller.js that reads
    what placeOrder stores.

    Numbers.  Every JavaScript number of the source (prices, sale
    percentages, quantities, totals) is a rational [Q]; [+], [*], [/] and
    [Math.min] are the exact operations.  [toFixed(2)] followed by
    [parseFloat] or unary [+] is [toFixed2]: the nearest multiple of 1/100,
    the larger magnitude on a tie.  The source computes in doubles, and the
    two differ: a double product or sum is rounded to 53 bits where the
    rational one is exact (3 * 0.1 is 0.30000000000000004 in the source and
    3/10 here), and [toFixed] rounds the double it is given, which may lie
    on the other side of a tie than the decimal it was written as.  The
    general statements below therefore relate a value to the operations the
    source computes it by, in the order of the source; none equates a
    rounded value with an unrounded one.  Where a statement adds up
    quantities (the units placeOrder takes off a product), the sum is the
    double's for whole quantities.  The concrete inputs are whole numbers
    or stay at least 1/1000 away from every rounding tie, and their values
    are the same in doubles.

    Documents.  A collection is the list of its documents in natural order;
    [findOne] and [findById] return the first match.  ObjectIds are strings
    in the form [toString()] prints them: 24 hexadecimal digits in lower
    case ([isPrinted]).  An id of a request is compared as the string it is;
    the driver's cast of another spelling of an id (upper-case digits, a
    12-character string) is not part of the embedding. *)

From Stdlib Require Import QArith Qround Qminmax Lia.
From stdpp Require Import base option list strings.

Local Open Scope Q_scope.

(** ** Numbers *)

Definition Qlt_bool (x y : Q) : bool := negb (Qle_bool y x).

(** [Number.prototype.toFixed(2)] read back as a number: the rounding of
    the rational it is given.  [toFixed] rounds the double, which agrees
    unless the double lies across a tie from the rational (1.005). *)
Definition toFixed2 (x : Q) : Q :=
  if Qle_bool 0 x
  then Qfloor (x * 100 + (1 # 2)) # 100
  else - (Qfloor (- x * 100 + (1 # 2)) # 100).

(** Truthiness of a number: [x ? a : b] takes [b] exactly at zero. *)
Definition truthy (x : Q) : bool := negb (Qeq_bool x 0).

(** Truthiness of a string: the empty string is falsy. *)
Definition nonempty (s : string) : bool :=
  match s with EmptyString => false | _ => true end.

(** [a || b] on optional strings, as in [colorHex || product.colors[0]?.hex]. *)
Definition or_else (a b : option string) : option string :=
  match a with
  | Some s => if nonempty s then Some s else b
  | None => b
  end.

Definition sumQ (l : list Q) : Q := fold_left Qplus l 0.

(** ** Documents *)

Definition ObjectId := string.

(** One entry of [product.colors]. *)
Module Variant.
Record t := mk
  { name : string; hex : string; quantity : Q; images : list string }.
End Variant.

(** Modelled from the spec: models/product.model.js is not among the
    sources.  The spec gives a product an identity, a name, a base price, a
    sale percentage and an ordered list of color variants, each with a color
    name, a hex code, a stock quantity and image URLs; these are the paths
    cart.controller.js reads.  The product-level [quantity] is added for
    checkout.controller.js, which reads and increments that path
    (product.controller.js selects it); [createProduct] never sets it, hence
    the option ([None] is [undefined]). *)
Module Product.
Record t := mk
  { _id : ObjectId; name : string; price : Q; sale : Q;
    quantity : option Q; colors : list Variant.t }.
End Product.

Module Color.
Record t := mk { name : string; hex : string }.
End Color.

(** cart.model.js, lines 10-24: one element of [products]. *)
Module CartItem.
Record t := mk
  { id : ObjectId; color : Color.t; quantity : Q; subtotal : option Q }.
End CartItem.

(** cart.model.js, lines 3-28. *)
Module Cart.
Record t := mk
  { _id : ObjectId; userId : ObjectId;
    products : list CartItem.t; totalPrice : Q }.
End Cart.

(** A cart line after [populate('products.id')]: the reference is replaced
    by the product document, or by [null] when none has that id. *)
Module Populated.
Record t := mk
  { id : option Product.t; color : Color.t; quantity : Q;
    subtotal : option Q }.
End Populated.

(** The element placeOrder builds at checkout.controller.js, lines 24-30. *)
Module OrderItem.
Record t := mk
  { id : ObjectId; name : string; quantity : Q; price : option Q;
    color : Color.t }.
End OrderItem.

(** Modelled from the spec: models/order.model.js is not among the sources.
    The record has the fields placeOrder passes to [new Order] at
    checkout.controller.js, lines 44-51, which are the spec's user
    reference, line items, shipping address, payment method, transaction
    reference and total amount; the three request fields are opaque
    strings.  [order.save()] is taken to succeed. *)
Module Order.
Record t := mk
  { userId : ObjectId; orderItems : list OrderItem.t;
    shippingAddress : string; paymentMethod : string;
    transactionId : string; totalAmount : Q }.
End Order.

Record DB := mkDB
  { Products : list Product.t; Carts : list Cart.t; Orders : list Order.t }.

(** ** Replies *)

Inductive httpStatusText := SUCCESS | FAIL | ERROR.

(** The message templates of the two controllers, with the values they
    interpolate. *)
Inductive Message :=
| CartNotFound
| InvalidCartItems
| InvalidIdOrQuantity
| ProductNotFound
| NoAvailableColors
| ColorNotAvailable (chosenColor : string)
| InvalidUserID
| CartIsEmpty
| NotEnoughStock (name : string) (available requested : Q)
| FailedToPlaceOrder.

Record AppError := mkAppError
  { message : Message; statusCode : nat; statusText : httpStatusText }.

Inductive Exception := ValidationError | TypeError.

(** What a handler hands to [next]: an [AppError] it built, or an exception
    that [asyncWrapper] caught. *)
Inductive Raised := Refused (e : AppError) | Thrown (x : Exception).

Inductive Reply (A : Type) :=
| Json (status : nat) (data : A)
| Next (err : Raised).
Arguments Json {A} status data.
Arguments Next {A} err.

(** ** Queries *)

(** [Product.findById(id)], and the lookup [populate] does for a stored id.
    The id is in printed form.  For a request id in another spelling the
    driver casts before it compares and finds the product where this lookup
    finds none; the statements on request ids that depend on it say
    [isPrinted]. *)
Definition findById (id : ObjectId) (docs : list Product.t) : option Product.t :=
  snd <$> list_find (λ p, Product._id p = id) docs.

(** [Cart.findOne({ userId })]. *)
Definition findOne (userId : ObjectId) (docs : list Cart.t) : option Cart.t :=
  snd <$> list_find (λ c, Cart.userId c = userId) docs.

(** [colors.find((c) => c.hex === hex)] and [colors.find((c) => c.name === name)]. *)
Definition findByHex (hex : string) (colors : list Variant.t) : option Variant.t :=
  snd <$> list_find (λ c, Variant.hex c = hex) colors.

Definition findByName (name : string) (colors : list Variant.t) : option Variant.t :=
  snd <$> list_find (λ c, Variant.name c = name) colors.

Definition populate (catalog : list Product.t) (item : CartItem.t) : Populated.t :=
  Populated.mk (findById (CartItem.id item) catalog) (CartItem.color item)
    (CartItem.quantity item) (CartItem.subtotal item).

(** ** models/cart.model.js *)

(** The expression of cart.model.js, lines 44-46, and of
    cart.controller.js, line 18: [sale ? price * (1 - sale / 100) : price]. *)
Definition effectivePrice (p : Product.t) : Q :=
  if truthy (Product.sale p)
  then Product.price p * (1 - Product.sale p / 100)
  else Product.price p.

(** Lines 43-49: the unit price is rounded first, the subtotal is the
    stored quantity times the rounded price.  The product is not rounded
    again: the source stores the double product, this the exact one. *)
Definition hookSubtotal (p : Product.t) (quantity : Q) : Q :=
  let price := toFixed2 (effectivePrice p) in
  quantity * price.

(** Lines 37-61: the [reduce] over [this.products].  A line whose product
    did not populate is passed over with a warning ([return acc]); the
    others get their [subtotal] assigned and added to the accumulator. *)
Fixpoint reduceHook (catalog : list Product.t) (products : list CartItem.t)
    (acc : Q) : list CartItem.t * Q :=
  match products with
  | [] => ([], acc)
  | product :: rest =>
      match findById (CartItem.id product) catalog with
      | None =>
          let '(rest', total) := reduceHook catalog rest acc in
          (product :: rest', total)
      | Some p =>
          let subtotal := hookSubtotal p (CartItem.quantity product) in
          let '(rest', total) := reduceHook catalog rest (acc + subtotal) in
          (CartItem.mk (CartItem.id product) (CartItem.color product)
             (CartItem.quantity product) (Some subtotal) :: rest', total)
      end
  end.

(** [CartSchema.pre('save')], lines 30-70. *)
Definition preSave (catalog : list Product.t) (doc : Cart.t) : Cart.t :=
  let '(products, total) := reduceHook catalog (Cart.products doc) 0 in
  Cart.mk (Cart._id doc) (Cart.userId doc) products total.

(** The schema validators of lines 17-21: [required] on the two color
    strings (an empty string fails it) and [min: 1] on the quantity.  The
    lines already stored passed them when they were stored. *)
Definition validItem (item : CartItem.t) : bool :=
  nonempty (Color.name (CartItem.color item))
  && nonempty (Color.hex (CartItem.color item))
  && Qle_bool 1 (CartItem.quantity item).

(** The document replaces the stored one with its [_id], or is inserted. *)
Definition writeCart (doc : Cart.t) (carts : list Cart.t) : list Cart.t :=
  match list_find (λ d, Cart._id d = Cart._id doc) carts with
  | Some (i, _) => <[i := doc]> carts
  | None => carts ++ [doc]
  end.

(** [cart.save()]: validation, then the pre-save hook, then the write. *)
Definition save (db : DB) (doc : Cart.t) : Exception + DB * Cart.t :=
  if forallb validItem (Cart.products doc) then
    let doc' := preSave (Products db) doc in
    inr (mkDB (Products db) (writeCart doc' (Carts db)) (Orders db), doc')
  else inl ValidationError.

(** ** controllers/cart.controller.js *)

(** The object [formatProductData] returns. *)
Module Formatted.
Record t := mk
  { _id : ObjectId; name : string; color : Color.t; quantity : Q;
    image : option string; price : Q; subtotal : Q }.
End Formatted.

(** The [data] of the replies of getUserCart and addToCart. *)
Module CartView.
Record t := mk { products : list Formatted.t; totalPrice : Q }.
End CartView.

(** [x || 0] on a number. *)
Definition or_zero (x : Q) : Q := if truthy x then x else 0.

(** Lines 9-29.  [images] holds the [url] of each image; an empty [url]
    is [null] in the reply, as with [|| null]. *)
Definition formatProductData (id : option Product.t) (quantity : Q)
    (color : Color.t) : option Formatted.t :=
  match id with
  | None => None
  | Some id =>
      match findByHex (Color.hex color) (Product.colors id) with
      | None => None
      | Some colorVariant =>
          let availableQuantity := or_zero (Variant.quantity colorVariant) in
          let finalQuantity := Qmin quantity availableQuantity in
          let effectivePrice := effectivePrice id in
          Some (Formatted.mk (Product._id id) (Product.name id)
                  (Color.mk (Variant.name colorVariant) (Variant.hex colorVariant))
                  finalQuantity
                  (or_else (head (Variant.images colorVariant)) None)
                  effectivePrice
                  (toFixed2 (finalQuantity * effectivePrice)))
      end
  end.

(** Lines 45-47 and 158-160: [.map(formatProductData).filter(Boolean)] over
    the populated lines. *)
Definition formatLine (catalog : list Product.t) (item : CartItem.t)
    : option Formatted.t :=
  let p := populate catalog item in
  formatProductData (Populated.id p) (Populated.quantity p) (Populated.color p).

Definition formatProducts (catalog : list Product.t)
    (products : list CartItem.t) : list Formatted.t :=
  omap (formatLine catalog) products.

(** Lines 32-58.  The total of the reply is the stored [cart.totalPrice]. *)
Definition getUserCart (db : DB) (userId : ObjectId) : Reply CartView.t :=
  match findOne userId (Carts db) with
  | None => Next (Refused (mkAppError CartNotFound 404 FAIL))
  | Some cart =>
      let products := formatProducts (Products db) (Cart.products cart) in
      let totalPrice := Cart.totalPrice cart in
      Json 200 (CartView.mk products totalPrice)
  end.

(** One element of the request body of addToCart. *)
Module Item.
Record t := mk { id : string; quantity : Q; colorHex : option string }.
End Item.

(** The same element once line 109 has attached [item.color]. *)
Module Checked.
Record t := mk { id : string; quantity : Q; color : Color.t }.
End Checked.

(** The body of a placeOrder request. *)
Module Checkout.
Record t := mk
  { shippingAddress : string; paymentMethod : string; transactionId : string }.
End Checkout.

(** [!chosenColor]. *)
Definition falsy (o : option string) : bool :=
  match o with Some s => negb (nonempty s) | None => true end.

Section Handlers.

(** [mongoose.Types.ObjectId.isValid], a predicate of the driver. *)
Variable isValid : string → bool.

(** The documents a bare id selects when it is passed where a filter
    object is expected ([Cart.findOneAndDelete(userId)], line 63 of
    checkout.controller.js).  That is the driver's business: Mongoose reads
    an ObjectId as [{ _id: id }] ([bareAsId] below) and drops a string,
    which leaves the empty filter ([bareAsNothing]).  [req.user._id] comes
    from the authentication middleware, which is not among the sources. *)
Variable bare : ObjectId → Cart.t → bool.

(** addToCart, lines 74-112: one turn of the validation loop.  The
    [Product.findById(id)] of line 82 is [findById] on the string of the
    request, which is what the driver does for an id in printed form. *)
Definition validateItem (catalog : list Product.t) (item : Item.t)
    : AppError + Checked.t :=
  if negb (isValid (Item.id item)) || Qlt_bool (Item.quantity item) 1
  then inl (mkAppError InvalidIdOrQuantity 400 FAIL)
  else
    match findById (Item.id item) catalog with
    | None => inl (mkAppError ProductNotFound 404 FAIL)
    | Some product =>
        let chosenColor :=
          or_else (Item.colorHex item) (Variant.hex <$> head (Product.colors product)) in
        if falsy chosenColor
        then inl (mkAppError NoAvailableColors 400 FAIL)
        else
          let chosenColor := default EmptyString chosenColor in
          match findByHex chosenColor (Product.colors product) with
          | None => inl (mkAppError (ColorNotAvailable chosenColor) 400 FAIL)
          | Some colorVariant =>
              inr (Checked.mk (Item.id item) (Item.quantity item)
                     (Color.mk (Variant.name colorVariant) (Variant.hex colorVariant)))
          end
    end.

(** Lines 73-113: the loop returns at the first item it refuses. *)
Fixpoint validateItems (catalog : list Product.t) (items : list Item.t)
    : AppError + list Checked.t :=
  match items with
  | [] => inr []
  | item :: rest =>
      match validateItem catalog item with
      | inl e => inl e
      | inr c =>
          match validateItems catalog rest with
          | inl e => inl e
          | inr cs => inr (c :: cs)
          end
      end
  end.

(** Line 126 and line 128: the variant is looked up again, by color name,
    and [colorVariant?.quantity ?? 0] is its stock. *)
Definition availableQuantity (product : Product.t) (color : Color.t) : Q :=
  match findByName (Color.name color) (Product.colors product) with
  | Some colorVariant => Variant.quantity colorVariant
  | None => 0
  end.

(** Lines 124-147: one turn of the second loop over the cart's lines.
    Line 137 compares [p.id.toString()] with the string of the request:
    for an id in printed form that is the equality of the two ids. *)
Definition addItem (catalog : list Product.t) (products : list CartItem.t)
    (item : Checked.t) : Exception + list CartItem.t :=
  match findById (Checked.id item) catalog with
  | None => inl TypeError
  | Some product =>
      let availableQuantity := availableQuantity product (Checked.color item) in
      let finalQuantity := Qmin (Checked.quantity item) availableQuantity in
      if Qeq_bool finalQuantity 0 then inr products
      else
        match list_find (λ p, CartItem.id p = Checked.id item
                              ∧ Color.hex (CartItem.color p)
                                = Color.hex (Checked.color item)) products with
        | Some (i, existing) =>
            inr (<[i := CartItem.mk (CartItem.id existing) (CartItem.color existing)
                          (Qmin (CartItem.quantity existing + finalQuantity)
                                availableQuantity)
                          (CartItem.subtotal existing)]> products)
        | None =>
            inr (products ++ [CartItem.mk (Checked.id item) (Checked.color item)
                                finalQuantity None])
        end
  end.

(** Lines 123-148. *)
Fixpoint addItems (catalog : list Product.t) (products : list CartItem.t)
    (items : list Checked.t) : Exception + list CartItem.t :=
  match items with
  | [] => inr products
  | item :: rest =>
      match addItem catalog products item with
      | inl x => inl x
      | inr products' => addItems catalog products' rest
      end
  end.

(** Lines 61-166.  [fresh] is the [_id] the driver gives to [new Cart]. *)
Definition addToCart (db : DB) (userId fresh : ObjectId) (items : list Item.t)
    : DB * Reply CartView.t :=
  match items with
  | [] => (db, Next (Refused (mkAppError InvalidCartItems 400 FAIL)))
  | _ =>
      match validateItems (Products db) items with
      | inl e => (db, Next (Refused e))
      | inr checked =>
          let cart := default (Cart.mk fresh userId [] 0) (findOne userId (Carts db)) in
          match addItems (Products db) (Cart.products cart) checked with
          | inl x => (db, Next (Thrown x))
          | inr products =>
              match save db (Cart.mk (Cart._id cart) (Cart.userId cart)
                               products (Cart.totalPrice cart)) with
              | inl x => (db, Next (Thrown x))
              | inr (db', cart) =>
                  match findOne userId (Carts db') with
                  | None => (db', Next (Thrown TypeError))
                  | Some updatedCart =>
                      let products :=
                        formatProducts (Products db') (Cart.products updatedCart) in
                      (db', Json 201 (CartView.mk products (Cart.totalPrice cart)))
                  end
              end
          end
      end
  end.

(** ** controllers/checkout.controller.js *)

(** Lines 23-31.  [item.id._id] on a line that did not populate throws;
    [mapM] is [None] then.  The [price] of the element is [item.subtotal]. *)
Definition orderItem (item : Populated.t) : option OrderItem.t :=
  p ← Populated.id item;
  Some (OrderItem.mk (Product._id p) (Product.name p) (Populated.quantity item)
          (Populated.subtotal item) (Populated.color item)).

(** [a > b] where [b] may be [undefined]: false then. *)
Definition exceeds (a : Q) (b : option Q) : bool :=
  match b with Some b => Qlt_bool b a | None => false end.

(** Lines 32-42: the first line with [item.quantity > item.id.quantity]
    ends the call.  [item.id.quantity] is the product-level path. *)
Fixpoint checkStock (products : list Populated.t) : option AppError :=
  match products with
  | [] => None
  | item :: rest =>
      match Populated.id item with
      | None => Some (mkAppError FailedToPlaceOrder 500 ERROR)
      | Some p =>
          if exceeds (Populated.quantity item) (Product.quantity p)
          then Some (mkAppError
                       (NotEnoughStock (Product.name p)
                          (default 0 (Product.quantity p)) (Populated.quantity item))
                       400 FAIL)
          else checkStock rest
      end
  end.

(** [{ $inc: { quantity: delta } }]: an absent path counts from zero. *)
Definition inc (delta : Q) (p : Product.t) : Product.t :=
  Product.mk (Product._id p) (Product.name p) (Product.price p) (Product.sale p)
    (Some (default 0 (Product.quantity p) + delta)) (Product.colors p).

(** [Product.updateOne({ _id }, { $inc: { quantity: delta } })]. *)
Definition updateOne (_id : ObjectId) (delta : Q) (catalog : list Product.t)
    : list Product.t :=
  match list_find (λ p, Product._id p = _id) catalog with
  | Some (i, p) => <[i := inc delta p]> catalog
  | None => catalog
  end.

(** Lines 55-62: one update per cart line. *)
Definition decrementAll (products : list Populated.t) (catalog : list Product.t)
    : list Product.t :=
  fold_left (λ catalog item,
               match Populated.id item with
               | Some p => updateOne (Product._id p) (- Populated.quantity item) catalog
               | None => catalog
               end)
            products catalog.

(** [Cart.findOneAndDelete(filter)]: the first match is removed. *)
Definition findOneAndDelete (filter : Cart.t → bool) (carts : list Cart.t)
    : list Cart.t :=
  match list_find (λ c, filter c = true) carts with
  | Some (i, _) => delete i carts
  | None => carts
  end.

(** Lines 10-72.  Line 18 reads the cart with the filter [{ userId }];
    line 63 hands [userId] itself to [findOneAndDelete]. *)
Definition placeOrder (db : DB) (userId : ObjectId) (body : Checkout.t)
    : DB * Reply Order.t :=
  if negb (isValid userId)
  then (db, Next (Refused (mkAppError InvalidUserID 400 FAIL)))
  else
    match findOne userId (Carts db) with
    | None => (db, Next (Refused (mkAppError CartIsEmpty 400 FAIL)))
    | Some cart =>
        let products := populate (Products db) <$> Cart.products cart in
        match products with
        | [] => (db, Next (Refused (mkAppError CartIsEmpty 400 FAIL)))
        | _ =>
            match mapM orderItem products with
            | None => (db, Next (Refused (mkAppError FailedToPlaceOrder 500 ERROR)))
            | Some orderItems =>
                match checkStock products with
                | Some e => (db, Next (Refused e))
                | None =>
                    let order :=
                      Order.mk userId orderItems (Checkout.shippingAddress body)
                        (Checkout.paymentMethod body) (Checkout.transactionId body)
                        (toFixed2 (Cart.totalPrice cart)) in
                    (mkDB (decrementAll products (Products db))
                          (findOneAndDelete (bare userId) (Carts db))
                          (Orders db ++ [order]),
                     Json 201 order)
                end
            end
        end
    end.

End Handlers.

(** The two readings of a bare id. *)
Definition bareAsId (id : ObjectId) (c : Cart.t) : bool := bool_decide (Cart._id c = id).
Definition bareAsNothing (id : ObjectId) (c : Cart.t) : bool := true.

(** ** The order view of controllers/order.controller.js

    [getOrderDetails] formats each stored order item with
    [total: (item.price * item.quantity).toFixed(2)]: it reads [price] as
    the price of one unit.  A missing [price] throws. *)
Definition orderItemTotal (item : OrderItem.t) : option Q :=
  price ← OrderItem.price item;
  Some (toFixed2 (price * OrderItem.quantity item)).

(** ** Concrete catalogues, carts and requests *)

(** A reading of [ObjectId.isValid] on strings: 24 hexadecimal digits. *)
Definition isHexDigit (c : Ascii.ascii) : bool :=
  let n := Ascii.nat_of_ascii c in
  ((48 <=? n) && (n <=? 57) || (97 <=? n) && (n <=? 102)
   || (65 <=? n) && (n <=? 70))%nat.

Fixpoint allHex (s : string) : bool :=
  match s with
  | EmptyString => true
  | String c rest => isHexDigit c && allHex rest
  end.

Definition isHex24 (s : string) : bool :=
  (String.length s =? 24)%nat && allHex s.

(** The strings [ObjectId.prototype.toString] prints: 24 hexadecimal
    digits, the letters in lower case.  On these the driver's cast is the
    identity, and [p.id.toString() === id] compares two ObjectIds. *)
Definition isPrintedDigit (c : Ascii.ascii) : bool :=
  let n := Ascii.nat_of_ascii c in
  ((48 <=? n) && (n <=? 57) || (97 <=? n) && (n <=? 102))%nat.

Fixpoint allPrinted (s : string) : bool :=
  match s with
  | EmptyString => true
  | String c rest => isPrintedDigit c && allPrinted rest
  end.

Definition isPrinted (s : string) : bool :=
  (String.length s =? 24)%nat && allPrinted s.

Module Sample.

Definition alice : ObjectId := "65f0000000000000000000a1".
Definition bob : ObjectId := "65f0000000000000000000b2".
Definition chairId : ObjectId := "65a000000000000000000001".
Definition sofaId : ObjectId := "65a000000000000000000002".
Definition stoolId : ObjectId := "65a000000000000000000003".
Definition goneId : ObjectId := "65a0000000000000000000ff".
Definition cartA : ObjectId := "65c0000000000000000000a1".
Definition cartB : ObjectId := "65c0000000000000000000b2".

Definition red : Color.t := Color.mk "Red" "#ff0000".

(** The product of the spec's scenario: price 100, sale 10, one red
    variant with the given stock.  [createProduct] leaves the product-level
    quantity unset ([None]). *)
Definition chair (stock : Q) (quantity : option Q) : Product.t :=
  Product.mk chairId "Chair" 100 10 quantity
    [Variant.mk "Red" "#ff0000" stock ["https://img/chair-red.png"]].

(** Effective price 0.999: rounds to 1.00 per unit. *)
Definition stool : Product.t :=
  Product.mk stoolId "Stool" 1.11 10 None
    [Variant.mk "Red" "#ff0000" 10 []].

(** Two shades listed under one color name. *)
Definition sofa : Product.t :=
  Product.mk sofaId "Sofa" 500 0 None
    [Variant.mk "Brown" "#8b4513" 10 []; Variant.mk "Brown" "#a0522d" 1 []].

Definition body : Checkout.t := Checkout.mk "12 Elm Street" "card" "tx-1".

Definition empty (catalog : list Product.t) : DB := mkDB catalog [] [].

(** Alice's cart with one red chair line. *)
Definition chairCart (quantity : Q) (subtotal : Q) : Cart.t :=
  Cart.mk cartA alice [CartItem.mk chairId red quantity (Some subtotal)] subtotal.

(** Bob's cart comes first in the collection, Alice's second. *)
Definition bobCart : Cart.t :=
  Cart.mk cartB bob [CartItem.mk chairId red 1 (Some 90)] 90.

(** A cart with a line whose product is gone from the catalogue and a
    line that resolves. *)
Definition orphanCart : Cart.t :=
  Cart.mk cartA alice
    [CartItem.mk goneId red 2 (Some 50); CartItem.mk chairId red 1 None] 0.

(** Alice's cart holding one unit of the second brown shade. *)
Definition sofaCart : Cart.t :=
  Cart.mk cartA alice
    [CartItem.mk sofaId (Color.mk "Brown" "#a0522d") 1 (Some 500)] 500.

End Sample.

(** ** Notions the statements below use *)

(** An amount with at most two decimals. *)
Definition cents (x : Q) : Prop := toFixed2 x == x.

(** The effective price in the words of the spec:
    [sale > 0 ? price * (1 - sale/100) : price]. *)
Definition specEffectivePrice (price sale : Q) : Q :=
  if Qlt_bool 0 sale then price * (1 - sale / 100) else price.

(** The sum of the per-item subtotals a cart view carries. *)
Definition subtotals (view : CartView.t) : Q :=
  sumQ (Formatted.subtotal <$> CartView.products view).

(** "getCart returns a totalPrice equal to the sum of the per-item
    subtotals it returns alongside it." *)
Definition totalMatchesSubtotals (db : DB) (userId : ObjectId) : Prop :=
  ∀ status view,
    getUserCart db userId = Json status view →
    CartView.totalPrice view == subtotals view.

(** "The subtotal computed by the save-time hook equals the subtotal
    computed by the cart-view formatter", for one line. *)
Definition sameSubtotal (p : Product.t) (quantity : Q) (color : Color.t) : Prop :=
  ∀ f, formatProductData (Some p) quantity color = Some f →
       Formatted.subtotal f == hookSubtotal p quantity.

(** "The save-time recomputation discards from the cart every line item
    whose product reference can no longer be resolved." *)
Definition discardsUnresolved (catalog : list Product.t) (doc : Cart.t) : Prop :=
  ∀ item, item ∈ Cart.products (preSave catalog doc) →
          is_Some (findById (CartItem.id item) catalog).

(** The subtotal the hook assigns to a line, if its product resolves. *)
Definition recomputed (catalog : list Product.t) (item : CartItem.t) : option Q :=
  p ← findById (CartItem.id item) catalog;
  Some (hookSubtotal p (CartItem.quantity item)).

(** A line as the hook leaves it. *)
Definition afterHook (catalog : list Product.t) (item : CartItem.t) : CartItem.t :=
  match recomputed catalog item with
  | Some subtotal =>
      CartItem.mk (CartItem.id item) (CartItem.color item) (CartItem.quantity item)
        (Some subtotal)
  | None => item
  end.

(** The product and the color variant a stored line resolves to in a
    catalogue: the cart view shows the lines that have both. *)
Definition resolved (catalog : list Product.t) (line : CartItem.t)
    : option (Product.t * Variant.t) :=
  p ← findById (CartItem.id line) catalog;
  v ← findByHex (Color.hex (CartItem.color line)) (Product.colors p);
  Some (p, v).

(** An item of an addToCart request that is valid: a well-formed product
    id, a quantity of at least 1, a product with that id, and a color
    variant for the requested hex (the product's first color when the
    request names none). *)
Definition acceptable (isValid : string → bool) (catalog : list Product.t)
    (item : Item.t) : Prop :=
  isValid (Item.id item) = true
  ∧ 1 <= Item.quantity item
  ∧ ∃ product hex v,
      findById (Item.id item) catalog = Some product
      ∧ or_else (Item.colorHex item) (Variant.hex <$> head (Product.colors product))
        = Some hex
      ∧ hex ≠ EmptyString
      ∧ v ∈ Product.colors product
      ∧ Variant.hex v = hex.

(** The key of a cart line: one line per (product, color hex). *)
Definition lineKey (item : CartItem.t) : ObjectId * string :=
  (CartItem.id item, Color.hex (CartItem.color item)).

(** The stock of the variant a request names by product id and hex. *)
Definition variantStock (catalog : list Product.t) (id : ObjectId) (hex : string)
    : option Q :=
  p ← findById id catalog;
  v ← findByHex hex (Product.colors p);
  Some (Variant.quantity v).

(** The stored quantity of the cart line with a given key. *)
Definition lineQuantity (db : DB) (userId : ObjectId) (id : ObjectId) (hex : string)
    : option Q :=
  cart ← findOne userId (Carts db);
  item ← snd <$> list_find (λ item, lineKey item = (id, hex)) (Cart.products cart);
  Some (CartItem.quantity item).

Module Scenario.
Import Sample.

(** The chair at another list price. *)
Definition repricedChair : Product.t :=
  Product.mk chairId "Chair" 200 10 None
    [Variant.mk "Red" "#ff0000" 3 ["https://img/chair-red.png"]].

(** Alice adds five red chairs to an empty store with three in stock. *)
Definition added : DB :=
  fst (addToCart isHex24 (empty [chair 3 None]) alice cartA
         [Item.mk chairId 5 (Some "#ff0000")]).

(** The list price changes after the cart was saved. *)
Definition repriced : DB := mkDB [repricedChair] (Carts added) (Orders added).

(** Alice's cart asks for five red chairs; one is left in stock. *)
Definition oversold : DB := mkDB [chair 1 None] [chairCart 5 450] [].

(** The same with a product-level quantity of 7. *)
Definition oversoldCounted : DB := mkDB [chair 1 (Some 7)] [chairCart 5 450] [].

(** Ten red chairs in stock, product-level quantity 0. *)
Definition inStock : DB := mkDB [chair 10 (Some 0)] [chairCart 1 90] [].

(** The checkout scenario of the spec: one line, quantity 3, unit price
    90; Bob's cart is stored before Alice's. *)
Definition checkout : DB :=
  mkDB [chair 3 (Some 3)] [bobCart; chairCart 3 270] [].

(** The request for five units of the second brown shade. *)
Definition secondBrown : list Item.t := [Item.mk sofaId 5 (Some "#a0522d")].

(** The cart Alice's scenario saves: three red chairs, not yet priced. *)
Definition unsaved : Cart.t :=
  Cart.mk cartA alice [CartItem.mk chairId red 3 None] 0.

(** A batch whose second item asks for a quantity of 0. *)
Definition batch : list Item.t :=
  [Item.mk chairId 1 (Some "#ff0000"); Item.mk chairId 0 (Some "#ff0000")].

(** What the checkout scenario leaves behind, for a reading [bare] of
    the bare id: the order is created with total 270 and the product-level
    quantity goes from 3 to 0, while the red variant still has its 3 units
    and Alice's cart is still stored. *)
Definition checkoutOutcome (bare : ObjectId → Cart.t → bool) : Prop :=
  let result := placeOrder isHex24 bare checkout alice body in
  (∃ order, result.2 = Json 201 order ∧ Order.totalAmount order == 270)
  ∧ Product.quantity <$> findById chairId (Products result.1) = Some (Some 0)
  ∧ variantStock (Products checkout) chairId "#ff0000" = Some 3
  ∧ variantStock (Products result.1) chairId "#ff0000" = Some 3
  ∧ findOne alice (Carts result.1) = Some (chairCart 3 270).

End Scenario.

(** * More of the code *)

(** ** controllers/cart.controller.js, updateCart *)

(** The body of an updateCart request; [color] is a hex string. *)
Module Patch.
Record t := mk { id : ObjectId; quantity : Q; color : option string }.
End Patch.

(** The messages of updateCart: three it shares with the handlers above
    ("Invalid id or quantity.", "Product not found.", "Cart not found.")
    and two of its own. *)
Inductive UpdateMessage :=
| Shared (m : Message)
| NoAvailableColorFound
| ProductNotFoundInCart.

Record UpdateError := mkUpdateError
  { updateMessage : UpdateMessage; updateStatusCode : nat;
    updateStatusText : httpStatusText }.

(** The [data.cart] of the reply: the saved document, its lines populated
    by [cart.populate("products.id", "_id name colors price")]; the
    populated product is kept whole here, the selection hides its other
    paths. *)
Module CartDoc.
Record t := mk { cart : Cart.t; lines : list Populated.t }.
End CartDoc.

Inductive UpdateReply :=
| Updated (status : nat) (data : CartDoc.t)
| UpdateRefused (e : UpdateError)
| UpdateThrown (x : Exception).

Section Update.

Variable isValid : string → bool.

(** Lines 169-226.  [quantity > 0] overwrites the line's quantity with the
    requested one; otherwise the line is spliced out. *)
Definition updateCart (db : DB) (userId : ObjectId) (body : Patch.t)
    : DB * UpdateReply :=
  let id := Patch.id body in
  let quantity := Patch.quantity body in
  if negb (isValid id) || Qlt_bool quantity 0
  then (db, UpdateRefused (mkUpdateError (Shared InvalidIdOrQuantity) 400 FAIL))
  else
    match findById id (Products db) with
    | None => (db, UpdateRefused (mkUpdateError (Shared ProductNotFound) 404 FAIL))
    | Some product =>
        let color :=
          if falsy (Patch.color body)
          then Variant.hex <$> head (Product.colors product)
          else Patch.color body in
        if falsy color
        then (db, UpdateRefused (mkUpdateError NoAvailableColorFound 400 FAIL))
        else
          let color := default EmptyString color in
          match findOne userId (Carts db) with
          | None => (db, UpdateRefused (mkUpdateError (Shared CartNotFound) 404 FAIL))
          | Some cart =>
              match list_find (λ p, CartItem.id p = id
                                    ∧ Color.hex (CartItem.color p) = color)
                              (Cart.products cart) with
              | None =>
                  (db, UpdateRefused (mkUpdateError ProductNotFoundInCart 404 FAIL))
              | Some (productIndex, line) =>
                  let products :=
                    if Qlt_bool 0 quantity
                    then <[productIndex := CartItem.mk (CartItem.id line)
                                             (CartItem.color line) quantity
                                             (CartItem.subtotal line)]>
                           (Cart.products cart)
                    else delete productIndex (Cart.products cart) in
                  match save db (Cart.mk (Cart._id cart) (Cart.userId cart)
                                   products (Cart.totalPrice cart)) with
                  | inl x => (db, UpdateThrown x)
                  | inr (db', cart) =>
                      (db', Updated 200
                              (CartDoc.mk cart
                                 (populate (Products db') <$> Cart.products cart)))
                  end
              end
          end
    end.

End Update.

(** ** controllers/product.controller.js, the price range *)

(** [calculateEffectivePrice], lines 282-290: the [$cond] on [$gt: [sale, 0]]. *)
Definition calculateEffectivePrice (p : Product.t) : Q :=
  if Qlt_bool 0 (Product.sale p)
  then Product.price p * (1 - Product.sale p / 100)
  else Product.price p.

(** The accumulators [$min] and [$max] of a [$group] stage. *)
Definition accMin (acc : option Q) (x : Q) : option Q :=
  Some (match acc with Some m => Qmin m x | None => x end).

Definition accMax (acc : option Q) (x : Q) : option Q :=
  Some (match acc with Some m => Qmax m x | None => x end).

(** [getMinEffectivePrice], lines 321-353, and [getMaxEffectivePrice],
    lines 355-387: the value in [data]; no document means no group, and
    the reply carries 0. *)
Definition getMinEffectivePrice (catalog : list Product.t) : Q :=
  default 0 (fold_left accMin (calculateEffectivePrice <$> catalog) None).

Definition getMaxEffectivePrice (catalog : list Product.t) : Q :=
  default 0 (fold_left accMax (calculateEffectivePrice <$> catalog) None).

(** [getPriceRange], lines 214-226: one [$group] with both accumulators;
    [result || { minPrice: 0, maxPrice: 0 }]. *)
Definition getPriceRange (catalog : list Product.t) : Q * Q :=
  default (0, 0)
    (fold_left (λ acc x,
                  Some (match acc with
                        | Some (lo, hi) => (Qmin lo x, Qmax hi x)
                        | None => (x, x)
                        end))
               (calculateEffectivePrice <$> catalog) None).

(** ** Notions for the statements on this code *)

(** A line asks for no more than its color variant has in stock. *)
Definition withinStock (catalog : list Product.t) (line : CartItem.t) : Prop :=
  ∀ p v, findById (CartItem.id line) catalog = Some p →
         findByHex (Color.hex (CartItem.color line)) (Product.colors p) = Some v →
         CartItem.quantity line <= Variant.quantity v.

(** No product lists two variants under one color name. *)
Definition distinctNames (catalog : list Product.t) : Prop :=
  ∀ p, p ∈ catalog → NoDup (Variant.name <$> Product.colors p).

(** A line placeOrder lets through: its product resolves and the line asks
    for no more than the product-level quantity, if there is one. *)
Definition orderable (catalog : list Product.t) (line : CartItem.t) : Prop :=
  ∃ p, findById (CartItem.id line) catalog = Some p
       ∧ ∀ available, Product.quantity p = Some available →
                      CartItem.quantity line <= available.

(** A validated item: its product resolves, and its color is that of the
    variant its hex names. *)
Definition chosenVariant (catalog : list Product.t) (item : Checked.t) : Prop :=
  ∃ product v,
    findById (Checked.id item) catalog = Some product
    ∧ findByHex (Color.hex (Checked.color item)) (Product.colors product) = Some v
    ∧ Checked.color item = Color.mk (Variant.name v) (Variant.hex v).

(** The hex an updateCart request targets: the one it names, or that of
    the product's first color; none if the product is unknown or has no
    color to fall back on. *)
Definition patchHex (catalog : list Product.t) (body : Patch.t) : option string :=
  product ← findById (Patch.id body) catalog;
  let color :=
    if falsy (Patch.color body)
    then Variant.hex <$> head (Product.colors product)
    else Patch.color body in
  if falsy color then None else color.

(** The product-level quantity placeOrder counts with, 0 when unset. *)
Definition productLevel (catalog : list Product.t) (id : ObjectId) : Q :=
  default 0 (findById id catalog ≫= Product.quantity).

(** The units of a product that the lines of a cart ask for, all colors
    together. *)
Definition orderedOf (id : ObjectId) (lines : list CartItem.t) : Q :=
  sumQ (CartItem.quantity <$> filter (λ line, CartItem.id line = id) lines).

(** The lines of a user's stored cart. *)
Definition storedLines (db : DB) (userId : ObjectId) : list CartItem.t :=
  default [] (Cart.products <$> findOne userId (Carts db)).

(** The cart addToCart starts from: the stored one, or a new one. *)
Definition startCart (db : DB) (userId fresh : ObjectId) : Cart.t :=
  default (Cart.mk fresh userId [] 0) (findOne userId (Carts db)).

(** * Properties *)

(** ** Rounding and sums *)

Lemma Qle_bool_proper x y x' y' : x == x' → y == y' → Qle_bool x y = Qle_bool x' y'.
Proof.
  intros Hx Hy. apply eq_true_iff_eq. rewrite !Qle_bool_iff, Hx, Hy. reflexivity.
Qed.

Global Instance toFixed2_proper : Proper (Qeq ==> Qeq) toFixed2.
Proof.
  intros x y Hxy. unfold toFixed2.
  rewrite (Qle_bool_proper 0 x 0 y) by (reflexivity || assumption).
  assert (H1 : Qfloor (x * 100 + (1 # 2)) = Qfloor (y * 100 + (1 # 2)))
    by (apply Qfloor_comp; rewrite Hxy; reflexivity).
  assert (H2 : Qfloor (- x * 100 + (1 # 2)) = Qfloor (- y * 100 + (1 # 2)))
    by (apply Qfloor_comp; rewrite Hxy; reflexivity).
  rewrite H1, H2. reflexivity.
Qed.

Lemma Qfloor_half (k : Z) : Qfloor (inject_Z k + (1 # 2)) = k.
Proof.
  unfold Qfloor, Qplus, inject_Z; simpl.
  rewrite Z.mul_1_r. symmetry. apply (Z.div_unique _ 2 k 1); lia.
Qed.

Lemma toFixed2_hundredths (k : Z) : toFixed2 (k # 100) == k # 100.
Proof.
  unfold toFixed2.
  destruct (Qle_bool 0 (k # 100)) eqn:Hs.
  - assert (H : (k # 100) * 100 + (1 # 2) == inject_Z k + (1 # 2)).
    { unfold Qeq, Qmult, Qplus, inject_Z; simpl. lia. }
    rewrite (Qfloor_comp _ _ H), Qfloor_half. reflexivity.
  - assert (H : - (k # 100) * 100 + (1 # 2) == inject_Z (- k) + (1 # 2)).
    { unfold Qeq, Qmult, Qplus, Qopp, inject_Z; simpl. lia. }
    rewrite (Qfloor_comp _ _ H), Qfloor_half.
    unfold Qeq, Qopp; simpl. lia.
Qed.

Lemma cents_iff (x : Q) : cents x ↔ ∃ k : Z, x == k # 100.
Proof.
  unfold cents. split.
  - intros H. unfold toFixed2 in H. destruct (Qle_bool 0 x).
    + eexists. symmetry. exact H.
    + exists (- Qfloor (- x * 100 + (1 # 2)))%Z. rewrite <- H at 1. reflexivity.
  - intros [k Hk]. rewrite Hk. apply toFixed2_hundredths.
Qed.

Lemma or_zero_id (x : Q) : or_zero x == x.
Proof.
  unfold or_zero, truthy. destruct (Qeq_bool x 0) eqn:H; simpl; [|reflexivity].
  apply Qeq_bool_iff in H. symmetry. exact H.
Qed.

Lemma sumQ_from (l : list Q) (a : Q) : fold_left Qplus l a == a + sumQ l.
Proof.
  unfold sumQ. revert a. induction l as [|x l IH]; intros a; simpl.
  - ring.
  - rewrite IH, (IH (0 + x)). ring.
Qed.

Lemma sumQ_cons (x : Q) (l : list Q) : sumQ (x :: l) == x + sumQ l.
Proof. unfold sumQ at 1. simpl. rewrite sumQ_from. ring. Qed.

(** ** The pre-save hook *)

Lemma recomputed_afterHook catalog item :
  recomputed catalog (afterHook catalog item) = recomputed catalog item.
Proof. unfold afterHook. destruct (recomputed catalog item) eqn:H; done. Qed.

Lemma reduceHook_lines catalog products acc :
  (reduceHook catalog products acc).1 = afterHook catalog <$> products.
Proof.
  revert acc. induction products as [|item rest IH]; intros acc; simpl; [done|].
  unfold afterHook at 1, recomputed.
  destruct (findById (CartItem.id item) catalog) as [p|]; simpl.
  - specialize (IH (acc + hookSubtotal p (CartItem.quantity item))).
    destruct (reduceHook catalog rest _) as [rest' total]; simpl in *. by rewrite IH.
  - specialize (IH acc).
    destruct (reduceHook catalog rest acc) as [rest' total]; simpl in *. by rewrite IH.
Qed.

Lemma reduceHook_total catalog products acc :
  (reduceHook catalog products acc).2 == acc + sumQ (omap (recomputed catalog) products).
Proof.
  revert acc. induction products as [|item rest IH]; intros acc; simpl.
  - unfold sumQ; simpl. ring.
  - unfold recomputed at 1.
    destruct (findById (CartItem.id item) catalog) as [p|]; simpl.
    + specialize (IH (acc + hookSubtotal p (CartItem.quantity item))).
      destruct (reduceHook catalog rest _) as [rest' total]; simpl in *.
      rewrite IH, sumQ_cons. unfold omap. ring.
    + specialize (IH acc).
      destruct (reduceHook catalog rest acc) as [rest' total]; simpl in *. exact IH.
Qed.

Lemma preSave_products catalog doc :
  Cart.products (preSave catalog doc) = afterHook catalog <$> Cart.products doc.
Proof.
  unfold preSave. rewrite <- (reduceHook_lines catalog (Cart.products doc) 0).
  by destruct (reduceHook catalog (Cart.products doc) 0).
Qed.

Lemma preSave_totalPrice catalog doc :
  Cart.totalPrice (preSave catalog doc)
  == sumQ (omap (recomputed catalog) (Cart.products doc)).
Proof.
  unfold preSave. pose proof (reduceHook_total catalog (Cart.products doc) 0) as H.
  destruct (reduceHook catalog (Cart.products doc) 0); simpl in *. rewrite H. ring.
Qed.

Lemma omap_recomputed_afterHook catalog (products : list CartItem.t) :
  omap (recomputed catalog) (afterHook catalog <$> products)
  = omap (recomputed catalog) products.
Proof.
  induction products as [|item rest IH]; simpl; [done|].
  rewrite recomputed_afterHook.
  destruct (recomputed catalog item); [f_equal|]; exact IH.
Qed.

(** C9, as the code has it: the hook keeps every line.  A line whose
    product no longer resolves stays in the cart as it was and adds nothing
    to the total; every other line gets its recomputed subtotal stored; and
    [totalPrice] is the sum of the recomputed subtotals of the lines of
    the saved cart whose product resolves. *)
Theorem preSave_keeps_lines_and_totals_resolved catalog doc :
  let saved := preSave catalog doc in
  Cart.products saved = afterHook catalog <$> Cart.products doc
  ∧ length (Cart.products saved) = length (Cart.products doc)
  ∧ (∀ item, item ∈ Cart.products doc →
             findById (CartItem.id item) catalog = None →
             item ∈ Cart.products saved)
  ∧ (∀ item subtotal, item ∈ Cart.products saved →
                      recomputed catalog item = Some subtotal →
                      CartItem.subtotal item = Some subtotal)
  ∧ Cart.totalPrice saved == sumQ (omap (recomputed catalog) (Cart.products saved)).
Proof.
  intros saved. subst saved. rewrite preSave_products.
  split; [done|]. split; [by rewrite length_fmap|]. split; [|split].
  - intros item Hin Hnone. apply list_elem_of_fmap. exists item. split; [|done].
    unfold afterHook, recomputed. by rewrite Hnone.
  - intros item' subtotal [item [-> Hin]]%list_elem_of_fmap.
    rewrite recomputed_afterHook. intros H. unfold afterHook. by rewrite H.
  - rewrite omap_recomputed_afterHook. apply preSave_totalPrice.
Qed.

(** ** The lines of the cart view *)

Lemma effectivePrice_spec (p : Product.t) :
  0 <= Product.sale p →
  effectivePrice p == specEffectivePrice (Product.price p) (Product.sale p).
Proof.
  intros Hs. unfold effectivePrice, specEffectivePrice, truthy, Qlt_bool.
  destruct (Qeq_bool (Product.sale p) 0) eqn:He;
    destruct (Qle_bool (Product.sale p) 0) eqn:Hl; simpl; try reflexivity.
  - apply Qeq_bool_iff in He.
    assert (Qle_bool (Product.sale p) 0 = true) as Ht
      by (apply Qle_bool_iff; rewrite He; apply Qle_refl).
    congruence.
  - apply Qle_bool_iff in Hl. apply Qeq_bool_neq in He.
    destruct He. apply Qle_antisym; assumption.
Qed.

Lemma omap_cons {A B} (f : A → option B) (x : A) (l : list A) :
  omap f (x :: l) = match f x with Some y => y :: omap f l | None => omap f l end.
Proof. done. Qed.

Lemma formatLine_saved catalog saved item :
  formatLine catalog (afterHook saved item) = formatLine catalog item.
Proof. unfold afterHook. by destruct (recomputed saved item). Qed.

Lemma formatProducts_resolved catalog saved (lines : list CartItem.t) :
  Forall2 (λ line f,
             ∃ p v, resolved catalog line = Some (p, v)
                    ∧ Formatted.quantity f
                      == Qmin (CartItem.quantity line) (Variant.quantity v)
                    ∧ Formatted.price f = effectivePrice p
                    ∧ Formatted.subtotal f
                      == toFixed2 (Qmin (CartItem.quantity line) (Variant.quantity v)
                                   * effectivePrice p))
          (filter (λ line, is_Some (resolved catalog line)) lines)
          (formatProducts catalog (afterHook saved <$> lines)).
Proof.
  unfold formatProducts. induction lines as [|line rest IH]; [constructor|].
  rewrite fmap_cons, omap_cons, formatLine_saved, filter_cons.
  assert (Hline : match resolved catalog line with
                  | Some (p, v) =>
                      ∃ f, formatLine catalog line = Some f
                           ∧ Formatted.quantity f
                             == Qmin (CartItem.quantity line) (Variant.quantity v)
                           ∧ Formatted.price f = effectivePrice p
                           ∧ Formatted.subtotal f
                             == toFixed2 (Qmin (CartItem.quantity line)
                                               (Variant.quantity v)
                                          * effectivePrice p)
                  | None => formatLine catalog line = None
                  end).
  { unfold resolved, formatLine, populate, formatProductData.
    cbn [Populated.id Populated.quantity Populated.color].
    destruct (findById (CartItem.id line) catalog) as [p|]; simpl; [|done].
    destruct (findByHex (Color.hex (CartItem.color line)) (Product.colors p))
      as [v|]; simpl; [|done].
    eexists. split; [reflexivity|]. simpl. rewrite or_zero_id. by repeat split. }
  destruct (resolved catalog line) as [[p v]|] eqn:Hr.
  - destruct Hline as (f & -> & Hf). rewrite decide_True by done.
    constructor; [|exact IH]. exists p, v. by split.
  - rewrite Hline, decide_False by (by intros [? [=]]). exact IH.
Qed.

(** ** getUserCart *)

(** C1, as the code has it: getUserCart shows the stored lines whose product
    and color variant resolve in the live catalogue, in order, each at the
    quantity min(stored quantity, stock of the variant), at the live
    effective price and at the subtotal of the two, rounded to two decimals.
    As [totalPrice] it returns the total of the last save: the sum of the
    subtotals the hook assigned then, to the lines whose product resolved
    in the catalogue of that save, whatever the catalogue is now. *)
Theorem getUserCart_returns_saved_total db userId saved doc :
  findOne userId (Carts db) = Some (preSave saved doc) →
  ∃ view,
    getUserCart db userId = Json 200 view
    ∧ CartView.totalPrice view == sumQ (omap (recomputed saved) (Cart.products doc))
    ∧ Forall2 (λ line f,
                 ∃ p v, resolved (Products db) line = Some (p, v)
                        ∧ Formatted.quantity f
                          == Qmin (CartItem.quantity line) (Variant.quantity v)
                        ∧ Formatted.price f = effectivePrice p
                        ∧ Formatted.subtotal f
                          == toFixed2 (Qmin (CartItem.quantity line) (Variant.quantity v)
                                       * effectivePrice p))
              (filter (λ line, is_Some (resolved (Products db) line))
                      (Cart.products doc))
              (CartView.products view).
Proof.
  intros Hcart. unfold getUserCart. rewrite Hcart.
  eexists. split; [reflexivity|]. cbn [CartView.totalPrice CartView.products].
  split; [apply preSave_totalPrice|].
  rewrite preSave_products. apply formatProducts_resolved.
Qed.

(** ** addToCart: validation *)

Section Validation.

Variable isValid : string → bool.

Lemma findByHex_Some hex colors v :
  findByHex hex colors = Some v → v ∈ colors ∧ Variant.hex v = hex.
Proof.
  unfold findByHex. destruct (list_find _ colors) as [[i w]|] eqn:H; [|done].
  intros [= ->]. apply list_find_Some in H as (Hi & Hw & _).
  split; [|done]. by eapply list_elem_of_lookup_2.
Qed.

(** What the validation loop has checked on an item it lets through. *)
Lemma validateItem_accepts catalog item c :
  validateItem isValid catalog item = inr c →
  isValid (Item.id item) = true
  ∧ 1 <= Item.quantity item
  ∧ Checked.id c = Item.id item
  ∧ Checked.quantity c = Item.quantity item
  ∧ ∃ product v,
      findById (Item.id item) catalog = Some product
      ∧ findByHex (Color.hex (Checked.color c)) (Product.colors product) = Some v
      ∧ Checked.color c = Color.mk (Variant.name v) (Variant.hex v).
Proof.
  unfold validateItem.
  destruct (isValid (Item.id item)) eqn:Hid; simpl; [|done].
  destruct (Qlt_bool (Item.quantity item) 1) eqn:Hq; [done|].
  destruct (findById (Item.id item) catalog) as [product|] eqn:Hp; [|done].
  destruct (falsy _); [done|].
  set (chosen := default EmptyString _).
  destruct (findByHex chosen (Product.colors product)) as [v|] eqn:Hv; [|done].
  intros [= <-]. simpl.
  split; [done|]. split.
  { unfold Qlt_bool in Hq. apply negb_false_iff, Qle_bool_iff in Hq. exact Hq. }
  split; [done|]. split; [done|].
  exists product, v. split; [done|]. split; [|done].
  destruct (findByHex_Some _ _ _ Hv) as [_ ->]. exact Hv.
Qed.

Lemma validateItem_accepts_acceptable catalog item c :
  validateItem isValid catalog item = inr c → acceptable isValid catalog item.
Proof.
  unfold validateItem, acceptable.
  destruct (isValid (Item.id item)) eqn:Hid; simpl; [|done].
  destruct (Qlt_bool (Item.quantity item) 1) eqn:Hq; [done|].
  destruct (findById (Item.id item) catalog) as [product|] eqn:Hp; [|done].
  destruct (or_else _ _) as [hex|] eqn:Hc; simpl; [|done].
  destruct (nonempty hex) eqn:Hne; simpl; [|done].
  destruct (findByHex hex (Product.colors product)) as [v|] eqn:Hv; [|done].
  intros _. split; [done|]. split.
  { unfold Qlt_bool in Hq. apply negb_false_iff, Qle_bool_iff in Hq. exact Hq. }
  destruct (findByHex_Some _ _ _ Hv) as [Hin Hhex].
  exists product, hex, v. repeat split; try done.
  intros ->. done.
Qed.

Lemma acceptable_validateItem catalog item :
  acceptable isValid catalog item → ∃ c, validateItem isValid catalog item = inr c.
Proof.
  intros (Hid & Hq & product & hex & v & Hp & Hc & Hne & Hin & Hhex).
  unfold validateItem. rewrite Hid, Hp, Hc. simpl.
  assert (Qlt_bool (Item.quantity item) 1 = false) as ->.
  { unfold Qlt_bool. apply negb_false_iff, Qle_bool_iff. exact Hq. }
  assert (nonempty hex = true) as -> by (by destruct hex).
  simpl. unfold findByHex.
  destruct (list_find_elem_of (λ c, Variant.hex c = hex) _ v Hin Hhex) as [[i w] ->].
  simpl. eauto.
Qed.

Lemma validateItems_refuses catalog items item :
  item ∈ items →
  ¬ acceptable isValid catalog item →
  ∃ e' bad, bad ∈ items
            ∧ validateItem isValid catalog bad = inl e'
            ∧ validateItems isValid catalog items = inl e'.
Proof.
  induction items as [|first rest IH]; intros Hin Hbad.
  - by apply elem_of_nil in Hin.
  - simpl. destruct (validateItem isValid catalog first) as [e1|c] eqn:Hfirst.
    + exists e1, first. split; [apply list_elem_of_here|done].
    + apply elem_of_cons in Hin as [->|Hin].
      { destruct Hbad. by eapply validateItem_accepts_acceptable. }
      destruct (IH Hin Hbad) as (e' & bad & Hb & Hv & ->).
      exists e', bad. split; [by apply list_elem_of_further|done].
Qed.

(** C10: the validation loop runs over the whole request before the cart
    is looked up.  If any item of the batch is not valid (an ill-formed
    id, a quantity below 1, no such product, no color variant), the call
    hands the error of the first refused item to [next], whatever carts
    and orders are stored, and the database is as it was. *)
Theorem addToCart_validation_atomic catalog items item :
  item ∈ items →
  ¬ acceptable isValid catalog item →
  ∃ e' bad,
    bad ∈ items
    ∧ validateItem isValid catalog bad = inl e'
    ∧ ∀ carts orders userId fresh,
        addToCart isValid (mkDB catalog carts orders) userId fresh items
        = (mkDB catalog carts orders, Next (Refused e')).
Proof.
  intros Hin Hbad.
  destruct (validateItems_refuses _ _ _ Hin Hbad) as (e' & bad & Hb & Hv & Hall).
  exists e', bad. split; [done|]. split; [done|].
  intros carts orders userId fresh. unfold addToCart.
  destruct items as [|first rest]; [by apply elem_of_nil in Hin|].
  simpl Products. by rewrite Hall.
Qed.

End Validation.

(** ** addToCart: one line per (product, color hex) *)

Lemma lineKey_afterHook catalog item : lineKey (afterHook catalog item) = lineKey item.
Proof. unfold afterHook. by destruct (recomputed catalog item). Qed.

Lemma addItem_keys catalog products item products' :
  addItem catalog products item = inr products' →
  NoDup (lineKey <$> products) →
  NoDup (lineKey <$> products').
Proof.
  unfold addItem.
  destruct (findById (Checked.id item) catalog) as [product|]; [|done].
  destruct (Qeq_bool _ 0); [by intros [= <-]|].
  destruct (list_find _ products) as [[i existing]|] eqn:Hfind; intros [= <-] Hnd.
  - apply list_find_Some in Hfind as (Hi & _ & _).
    rewrite list_fmap_insert. unfold lineKey at 1. simpl.
    rewrite list_insert_id; [done|].
    rewrite list_lookup_fmap, Hi. done.
  - apply list_find_None in Hfind.
    rewrite fmap_app. apply NoDup_app. split; [done|]. split.
    + intros key [line [-> Hline]]%list_elem_of_fmap Hnew.
      apply list_elem_of_singleton in Hnew.
      rewrite Forall_forall in Hfind. apply (Hfind line Hline).
      unfold lineKey in Hnew. simpl in Hnew. by injection Hnew.
    + apply NoDup_singleton.
Qed.

Lemma addItems_keys catalog items products products' :
  addItems catalog products items = inr products' →
  NoDup (lineKey <$> products) →
  NoDup (lineKey <$> products').
Proof.
  revert products. induction items as [|item rest IH]; intros products; simpl.
  - by intros [= <-].
  - destruct (addItem catalog products item) as [|step] eqn:Hstep; [done|].
    intros Hrest Hnd. eapply IH; [exact Hrest|]. by eapply addItem_keys.
Qed.

(** The line a request touches ends within the stock the loop read for it. *)
Lemma addItem_within_read_stock catalog products item products' product :
  findById (Checked.id item) catalog = Some product →
  addItem catalog products item = inr products' →
  ∀ line, line ∈ products' →
          line ∈ products
          ∨ (lineKey line = (Checked.id item, Color.hex (Checked.color item))
             ∧ CartItem.quantity line
               <= availableQuantity product (Checked.color item)).
Proof.
  intros Hp. unfold addItem. rewrite Hp.
  destruct (Qeq_bool _ 0); [intros [= <-]; by left|].
  destruct (list_find _ products) as [[i existing]|] eqn:Hfind; intros [= <-] line Hin.
  - apply list_find_Some in Hfind as (Hi & [Hid Hhex] & _).
    apply list_elem_of_lookup in Hin as [j Hj].
    destruct (decide (i = j)) as [->|Hne].
    + rewrite list_lookup_insert_eq in Hj by (by eapply lookup_lt_Some).
      injection Hj as <-. right. unfold lineKey; simpl. split; [by rewrite Hid, Hhex|].
      apply Q.le_min_r.
    + rewrite list_lookup_insert_ne in Hj by done. left. by eapply list_elem_of_lookup_2.
  - apply elem_of_app in Hin as [Hin|Hin]; [by left|].
    apply list_elem_of_singleton in Hin as ->. right. split; [done|]. simpl.
    apply Q.le_min_r.
Qed.

(** With distinct color names the stock the loop reads by name is the
    stock of the variant the request chose by hex. *)
Lemma availableQuantity_chosen product hex v :
  NoDup (Variant.name <$> Product.colors product) →
  findByHex hex (Product.colors product) = Some v →
  availableQuantity product (Color.mk (Variant.name v) (Variant.hex v))
  = Variant.quantity v.
Proof.
  intros Hnd Hv. unfold availableQuantity, findByName, findByHex in *. simpl.
  destruct (list_find (λ c, Variant.hex c = hex) _) as [[i w]|] eqn:Hi; [|done].
  injection Hv as ->. apply list_find_Some in Hi as (Hi & _ & _).
  destruct (list_find (λ c, Variant.name c = Variant.name v) _) as [[j w]|] eqn:Hj.
  - apply list_find_Some in Hj as (Hj & Hname & _). simpl.
    assert (i = j) as ->.
    { eapply NoDup_lookup; [exact Hnd| |]; rewrite list_lookup_fmap.
      - by rewrite Hi.
      - rewrite Hj. simpl. by rewrite Hname. }
    congruence.
  - apply list_find_None in Hj. rewrite Forall_forall in Hj.
    destruct (Hj v); [by eapply list_elem_of_lookup_2|done].
Qed.

Lemma findOne_Some userId carts cart :
  findOne userId carts = Some cart →
  ∃ i, carts !! i = Some cart
       ∧ Cart.userId cart = userId
       ∧ ∀ j c, carts !! j = Some c → (j < i)%nat → Cart.userId c ≠ userId.
Proof.
  unfold findOne. destruct (list_find _ carts) as [[i c]|] eqn:H; [|done].
  intros [= ->]. apply list_find_Some in H. by exists i.
Qed.

(** A saved cart is the one [findOne] returns for its user afterwards. *)
Lemma findOne_writeCart userId doc carts :
  Cart.userId doc = userId →
  (∀ c, findOne userId carts = Some c → Cart._id c = Cart._id doc) →
  findOne userId (writeCart doc carts) = Some doc.
Proof.
  intros Hu Hsame. unfold writeCart.
  assert (Hfirst : ∀ k y, carts !! k = Some y → Cart.userId y = userId →
                          ∃ k' c, (k' ≤ k)%nat ∧ carts !! k' = Some c
                                  ∧ Cart._id c = Cart._id doc).
  { intros k y Hk Hy.
    destruct (list_find_elem_of (λ c, Cart.userId c = userId) carts y) as [[k' c] Hf];
      [by eapply list_elem_of_lookup_2|done|].
    pose proof Hf as Hf'. apply list_find_Some in Hf' as (Hk' & _ & Hmin).
    exists k', c. split.
    - destruct (decide (k' ≤ k)%nat) as [|Hgt]; [done|].
      destruct (Hmin k y Hk); [lia|done].
    - split; [done|]. apply Hsame. unfold findOne. by rewrite Hf. }
  destruct (list_find (λ d, Cart._id d = Cart._id doc) carts) as [[j d]|] eqn:Hj.
  - apply list_find_Some in Hj as (Hj & _ & Hmin).
    unfold findOne.
    assert (list_find (λ c, Cart.userId c = userId) (<[j:=doc]> carts)
            = Some (j, doc)) as ->; [|done].
    apply list_find_Some. split; [|split; [done|]].
    + apply list_lookup_insert_eq. by eapply lookup_lt_Some.
    + intros k y Hk Hlt Hy.
      rewrite list_lookup_insert_ne in Hk by lia.
      destruct (Hfirst k y Hk Hy) as (k' & c & Hle & Hk' & Hid).
      apply (Hmin k' c Hk'); [lia|done].
  - apply list_find_None in Hj. rewrite Forall_forall in Hj.
    unfold findOne. rewrite list_find_app_r.
    + simpl. by rewrite decide_True.
    + apply list_find_None, Forall_forall. intros y Hy Hmatch.
      apply list_elem_of_lookup in Hy as [k Hk].
      destruct (Hfirst k y Hk Hmatch) as (k' & c & _ & Hk' & Hid).
      apply (Hj c); [by eapply list_elem_of_lookup_2|done].
Qed.

(** X3: the uniqueness of lines per (product, color hex) is kept by addToCart
    for a request whose ids are in printed form: if the user's stored cart
    has no two lines with one key, neither has the cart stored after the
    call, whatever the call replies.  The request's ids have to be printed
    ones: line 137 compares the string of the request with the printed id
    of the line, so another spelling of a line's id finds no line to merge
    into. *)
Theorem addToCart_one_line_per_key isValid db userId fresh items :
  Forall (λ item, isPrinted (Item.id item) = true) items →
  (∀ cart, findOne userId (Carts db) = Some cart →
           NoDup (lineKey <$> Cart.products cart)) →
  ∀ cart', findOne userId (Carts (addToCart isValid db userId fresh items).1)
           = Some cart' →
           NoDup (lineKey <$> Cart.products cart').
Proof.
  intros _ Hinv cart'. unfold addToCart.
  destruct items as [|first rest]; [apply Hinv|].
  destruct (validateItems _ _ _) as [|checked]; [apply Hinv|].
  set (cart := default _ (findOne userId (Carts db))).
  destruct (addItems _ _ checked) as [|products] eqn:Hadd; [apply Hinv|].
  unfold save. destruct (forallb validItem _); [|apply Hinv].
  set (doc := preSave _ _).
  assert (Hsaved : findOne userId (writeCart doc (Carts db)) = Some doc).
  { apply findOne_writeCart.
    - subst doc cart. unfold preSave. destruct (reduceHook _ _ _). simpl.
      destruct (findOne userId (Carts db)) as [c|] eqn:Hc; simpl; [|done].
      by destruct (findOne_Some _ _ _ Hc) as (_ & _ & ? & _).
    - intros c Hc. subst doc cart. unfold preSave. destruct (reduceHook _ _ _).
      simpl. by rewrite Hc. }
  assert (Hdoc : NoDup (lineKey <$> Cart.products doc)).
  { subst doc. rewrite preSave_products. simpl. rewrite <- list_fmap_compose.
    rewrite (list_fmap_ext (lineKey ∘ afterHook (Products db)) lineKey products)
      by (intros; apply lineKey_afterHook).
    eapply addItems_keys; [exact Hadd|]. subst cart.
    destruct (findOne userId (Carts db)) as [c|] eqn:Hc; simpl.
    - by apply Hinv.
    - apply NoDup_nil_2. }
  simpl. rewrite Hsaved. simpl. rewrite Hsaved. by intros [= <-].
Qed.

(** ** placeOrder *)

Section CheckoutFacts.

Variable isValid : string → bool.
Variable bare : ObjectId → Cart.t → bool.

(** X19: whatever placeOrder hands to [next], it has written nothing. *)
Lemma placeOrder_refused_unchanged db userId body db' err :
  placeOrder isValid bare db userId body = (db', Next err) → db' = db.
Proof.
  unfold placeOrder.
  destruct (negb (isValid userId)); [congruence|].
  destruct (findOne userId (Carts db)) as [cart|]; [|congruence].
  destruct (populate (Products db) <$> Cart.products cart); [congruence|].
  destruct (mapM orderItem _); [|congruence].
  destruct (checkStock _); congruence.
Qed.

(** X21: the stock check refuses exactly on a line that asks for more than
    the product-level quantity of its product. *)
Lemma checkStock_refuses products name available requested :
  checkStock products
  = Some (mkAppError (NotEnoughStock name available requested) 400 FAIL) →
  ∃ item p, item ∈ products
            ∧ Populated.id item = Some p
            ∧ Product.name p = name
            ∧ Product.quantity p = Some available
            ∧ Populated.quantity item = requested
            ∧ available < requested.
Proof.
  induction products as [|item rest IH]; simpl; [done|].
  destruct (Populated.id item) as [p|] eqn:Hp; [|done].
  destruct (exceeds _ _) eqn:Hex.
  - intros [= <- <- <-]. exists item, p.
    split; [apply list_elem_of_here|]. split; [done|]. split; [done|].
    unfold exceeds in Hex. destruct (Product.quantity p) as [q|]; [|done].
    split; [done|]. split; [done|]. simpl.
    unfold Qlt_bool in Hex. apply negb_true_iff in Hex.
    apply Qnot_le_lt. intros Hle. apply Qle_bool_iff in Hle. congruence.
  - intros H. destruct (IH H) as (i & q & Hin & Hrest).
    exists i, q. split; [by apply list_elem_of_further|done].
Qed.

Lemma updateOne_colors _id delta catalog :
  Product.colors <$> updateOne _id delta catalog = Product.colors <$> catalog.
Proof.
  unfold updateOne.
  destruct (list_find _ catalog) as [[i p]|] eqn:H; [|done].
  apply list_find_Some in H as (Hi & _ & _).
  rewrite list_fmap_insert. simpl. apply list_insert_id.
  by rewrite list_lookup_fmap, Hi.
Qed.

Lemma decrementAll_colors products catalog :
  Product.colors <$> decrementAll products catalog = Product.colors <$> catalog.
Proof.
  unfold decrementAll. revert catalog.
  induction products as [|item rest IH]; intros catalog; simpl; [done|].
  rewrite IH. destruct (Populated.id item); [apply updateOne_colors|done].
Qed.

(** X20: no call of placeOrder changes the color variants of any product:
    the per-color stock that the cart reads is never decremented. *)
Lemma placeOrder_keeps_variant_stock db userId body :
  Product.colors <$> Products (placeOrder isValid bare db userId body).1
  = Product.colors <$> Products db.
Proof.
  unfold placeOrder.
  destruct (negb (isValid userId)); [done|].
  destruct (findOne userId (Carts db)) as [cart|]; [|done].
  destruct (populate (Products db) <$> Cart.products cart) eqn:Hl; [done|].
  destruct (mapM orderItem _); [|done].
  destruct (checkStock _); [done|]. cbn [fst Products]. apply decrementAll_colors.
Qed.

(** Every order item placeOrder stores carries, as [price], the subtotal
    of its cart line. *)
Lemma orderItem_price item o :
  orderItem item = Some o → OrderItem.price o = Populated.subtotal item.
Proof.
  unfold orderItem. destruct (Populated.id item); simpl; [|done]. by intros [= <-].
Qed.

(** What a successful call has stored in the order: the total of the cart,
    rounded, and for each cart line the product's id and name, the line's
    quantity and color, and the line's subtotal as the price. *)
Lemma placeOrder_created_order db userId body db' status order :
  placeOrder isValid bare db userId body = (db', Json status order) →
  ∃ cart,
    findOne userId (Carts db) = Some cart
    ∧ Order.totalAmount order = toFixed2 (Cart.totalPrice cart)
    ∧ Forall2 (λ line o,
                 ∃ p, findById (CartItem.id line) (Products db) = Some p
                      ∧ o = OrderItem.mk (Product._id p) (Product.name p)
                              (CartItem.quantity line) (CartItem.subtotal line)
                              (CartItem.color line))
              (Cart.products cart) (Order.orderItems order).
Proof.
  unfold placeOrder.
  destruct (negb (isValid userId)); [done|].
  destruct (findOne userId (Carts db)) as [cart|]; [|done].
  destruct (populate (Products db) <$> Cart.products cart) as [|first rest] eqn:Hl;
    [done|].
  destruct (mapM orderItem _) as [items|] eqn:Hitems; [|done].
  destruct (checkStock _); [done|].
  intros [= <- <- <-]. exists cart. split; [done|]. split; [done|]. simpl.
  apply mapM_Some in Hitems. rewrite <- Hl in Hitems.
  apply Forall2_fmap_l in Hitems.
  eapply Forall2_impl; [exact Hitems|].
  intros line o. unfold orderItem, populate. simpl.
  destruct (findById (CartItem.id line) (Products db)) as [p|]; simpl; [|done].
  intros [= <-]. by exists p.
Qed.

End CheckoutFacts.

(** * Further properties *)

(** ** addToCart, beyond validation *)

Lemma startCart_userId db userId fresh :
  Cart.userId (startCart db userId fresh) = userId.
Proof.
  unfold startCart. destruct (findOne userId (Carts db)) as [c|] eqn:Hc; simpl; [|done].
  by destruct (findOne_Some _ _ _ Hc) as (_ & _ & ? & _).
Qed.

Lemma preSave_ids catalog doc :
  Cart._id (preSave catalog doc) = Cart._id doc
  ∧ Cart.userId (preSave catalog doc) = Cart.userId doc.
Proof. unfold preSave. by destruct (reduceHook _ _ _). Qed.

(** Saving a document that continues the user's stored cart (or starts
    one) makes it the cart [findOne] returns. *)
Lemma findOne_save db doc db' saved :
  (∀ c, findOne (Cart.userId doc) (Carts db) = Some c → Cart._id c = Cart._id doc) →
  save db doc = inr (db', saved) →
  saved = preSave (Products db) doc
  ∧ db' = mkDB (Products db) (writeCart saved (Carts db)) (Orders db)
  ∧ findOne (Cart.userId doc) (Carts db') = Some saved.
Proof.
  intros Hsame. unfold save. destruct (forallb validItem _); [|done].
  intros [= <- <-]. split; [done|]. split; [done|]. simpl.
  destruct (preSave_ids (Products db) doc) as [Hid Hu].
  apply findOne_writeCart; [done|]. intros c Hc. rewrite Hid. by apply Hsame.
Qed.

(** The two ways addToCart ends: an error with nothing written, or the
    merged lines saved through the hook and shown in the reply. *)
Lemma addToCart_cases isValid db userId fresh items :
  let start := startCart db userId fresh in
  (∃ err, addToCart isValid db userId fresh items = (db, Next err))
  ∨ (∃ checked products,
       validateItems isValid (Products db) items = inr checked
       ∧ addItems (Products db) (Cart.products start) checked = inr products
       ∧ forallb validItem products = true
       ∧ let doc := preSave (Products db)
                      (Cart.mk (Cart._id start) (Cart.userId start) products
                         (Cart.totalPrice start)) in
         addToCart isValid db userId fresh items
         = (mkDB (Products db) (writeCart doc (Carts db)) (Orders db),
            Json 201 (CartView.mk (formatProducts (Products db) (Cart.products doc))
                        (Cart.totalPrice doc)))
         ∧ findOne userId (writeCart doc (Carts db)) = Some doc).
Proof.
  intros start. unfold addToCart. fold (startCart db userId fresh). fold start.
  destruct items as [|first rest]; [left; eauto|].
  destruct (validateItems _ _ _) as [e|checked]; [left; eauto|].
  destruct (addItems _ _ checked) as [x|products] eqn:Hadd; [left; eauto|].
  set (doc := Cart.mk _ _ products _).
  destruct (save db doc) as [x|[db' saved]] eqn:Hsave; [left; eauto|].
  right. exists checked, products. split; [done|]. split; [done|].
  assert (Hvalid : forallb validItem products = true).
  { unfold save in Hsave. simpl in Hsave. by destruct (forallb validItem products). }
  split; [done|].
  assert (Hu : Cart.userId doc = userId) by apply startCart_userId.
  destruct (findOne_save db doc db' saved) as (-> & -> & Hfind); [|done|].
  { rewrite Hu. intros c Hc. subst doc start. unfold startCart. by rewrite Hc. }
  rewrite Hu in Hfind. simpl in Hfind |- *. rewrite Hfind. done.
Qed.

Lemma findById_Some id catalog p :
  findById id catalog = Some p → p ∈ catalog ∧ Product._id p = id.
Proof.
  unfold findById. destruct (list_find _ catalog) as [[i q]|] eqn:H; [|done].
  intros [= ->]. apply list_find_Some in H as (Hi & Hp & _).
  split; [|done]. by eapply list_elem_of_lookup_2.
Qed.

Lemma validateItems_inl isValid catalog items e :
  validateItems isValid catalog items = inl e →
  Exists (λ item, ¬ acceptable isValid catalog item) items.
Proof.
  induction items as [|first rest IH]; simpl; [done|].
  destruct (validateItem isValid catalog first) as [e1|c] eqn:Hfirst.
  - intros _. apply Exists_cons_hd. intros Hok.
    destruct (acceptable_validateItem isValid catalog first Hok) as [c Hc]. congruence.
  - destruct (validateItems isValid catalog rest) as [e2|cs]; [|done].
    intros [= ->]. apply Exists_cons_tl. by apply IH.
Qed.

Lemma validateItems_chosen isValid catalog items checked :
  validateItems isValid catalog items = inr checked →
  Forall (chosenVariant catalog) checked.
Proof.
  revert checked. induction items as [|first rest IH]; simpl; intros checked.
  - intros [= <-]. constructor.
  - destruct (validateItem isValid catalog first) as [e1|c] eqn:Hfirst; [done|].
    destruct (validateItems isValid catalog rest) as [e2|cs]; [done|].
    intros [= <-]. constructor; [|by apply IH].
    destruct (validateItem_accepts isValid catalog first c Hfirst)
      as (_ & _ & Hid & _ & product & v & Hp & Hv & Hc).
    exists product, v. by rewrite Hid.
Qed.

(** X1: addToCart hands an [AppError] to [next] exactly when the batch is
    empty or holds an item that is not valid. *)
Theorem addToCart_refuses_iff_invalid isValid db userId fresh items :
  (∃ e, (addToCart isValid db userId fresh items).2 = Next (Refused e))
  ↔ items = [] ∨ Exists (λ item, ¬ acceptable isValid (Products db) item) items.
Proof.
  split.
  - intros [e He]. unfold addToCart in He.
    destruct items as [|first rest]; [by left|]. right.
    destruct (validateItems _ _ _) as [e1|checked] eqn:Hv;
      [by eapply validateItems_inl|].
    exfalso. destruct (addItems _ _ checked); [done|].
    destruct (save _ _) as [x|[db' saved]]; [done|].
    simpl in He. by destruct (findOne userId (Carts db')).
  - intros [->|Hbad]; [by eexists|].
    apply Exists_exists in Hbad as (item & Hin & Hitem).
    destruct (validateItems_refuses isValid _ _ _ Hin Hitem) as (e' & _ & _ & _ & Hall).
    exists e'. unfold addToCart.
    destruct items as [|first rest]; [by apply elem_of_nil in Hin|].
    by rewrite Hall.
Qed.

Lemma withinStock_afterHook catalog line :
  withinStock catalog (afterHook catalog line) ↔ withinStock catalog line.
Proof. unfold afterHook. by destruct (recomputed catalog line). Qed.

Lemma addItem_withinStock catalog products item products' :
  distinctNames catalog →
  chosenVariant catalog item →
  Forall (withinStock catalog) products →
  addItem catalog products item = inr products' →
  Forall (withinStock catalog) products'.
Proof.
  intros Hnames (product & v & Hp & Hv & Hc) Hall Hadd.
  apply Forall_forall. intros line Hline.
  destruct (addItem_within_read_stock _ _ _ _ _ Hp Hadd line Hline) as [Hold|[Hkey Hle]].
  { rewrite Forall_forall in Hall. by apply Hall. }
  unfold lineKey in Hkey. injection Hkey as Hid Hhex.
  intros p' v'. rewrite Hid, Hhex, Hp. intros [= <-]. rewrite Hv. intros [= <-].
  rewrite Hc in Hle.
  rewrite (availableQuantity_chosen product (Color.hex (Checked.color item)) v)
    in Hle; [done| |done].
  apply Hnames. by apply (findById_Some _ _ _ Hp).
Qed.

Lemma addItems_withinStock catalog items products products' :
  distinctNames catalog →
  Forall (chosenVariant catalog) items →
  Forall (withinStock catalog) products →
  addItems catalog products items = inr products' →
  Forall (withinStock catalog) products'.
Proof.
  intros Hnames. revert products.
  induction items as [|item rest IH]; intros products Hitems Hall; simpl.
  - by intros [= <-].
  - destruct (addItem catalog products item) as [|step] eqn:Hstep; [done|].
    apply Forall_cons in Hitems as [Hitem Hrest].
    intros Hadd. eapply IH; [done| |exact Hadd].
    by eapply addItem_withinStock.
Qed.

(** X2: where no product lists two variants under one color name, addToCart
    keeps the cart within stock: if every line of the user's stored cart
    asks for no more than its variant has, so does every line of the cart
    stored after the call. *)
Theorem addToCart_keeps_lines_within_stock isValid db userId fresh items :
  distinctNames (Products db) →
  Forall (withinStock (Products db)) (storedLines db userId) →
  let db' := (addToCart isValid db userId fresh items).1 in
  Forall (withinStock (Products db')) (storedLines db' userId).
Proof.
  intros Hnames Hall db'. subst db'.
  destruct (addToCart_cases isValid db userId fresh items)
    as [[err ->]|(checked & products & Hv & Hadd & _ & -> & Hfind)]; [done|].
  unfold storedLines. simpl. rewrite Hfind. simpl.
  rewrite preSave_products. simpl. apply Forall_fmap, Forall_forall.
  intros line Hline. simpl. apply withinStock_afterHook.
  revert line Hline. apply Forall_forall.
  eapply addItems_withinStock; [done| | |exact Hadd].
  - by eapply validateItems_chosen.
  - unfold startCart, storedLines in *.
    destruct (findOne userId (Carts db)); simpl in *; [done|constructor].
Qed.

Lemma reduceHook_afterHook catalog (products : list CartItem.t) acc :
  reduceHook catalog (afterHook catalog <$> products) acc
  = reduceHook catalog products acc.
Proof.
  revert acc. induction products as [|item rest IH]; intros acc; [done|].
  rewrite fmap_cons. unfold afterHook at 1, recomputed.
  cbn [reduceHook].
  destruct (findById (CartItem.id item) catalog) as [p|] eqn:Hp;
    cbn [mbind option_bind reduceHook CartItem.id CartItem.quantity CartItem.color];
    rewrite Hp, IH; done.
Qed.

Lemma preSave_fixed catalog doc :
  preSave catalog (preSave catalog doc) = preSave catalog doc.
Proof.
  unfold preSave at 1. rewrite preSave_products, reduceHook_afterHook.
  destruct (preSave_ids catalog doc) as [-> ->]. done.
Qed.

(** X7: the hook is idempotent: running it on a cart it has priced, against
    the same catalogue, changes neither a line nor the total. *)
Theorem preSave_idempotent catalog doc :
  preSave catalog (preSave catalog doc) = preSave catalog doc.
Proof.
  destruct (preSave_ids catalog doc) as [Hid Huser].
  unfold preSave at 1. rewrite Hid, Huser, preSave_products.
  by rewrite reduceHook_afterHook.
Qed.

Lemma validItem_quantity line : validItem line = true → 1 <= CartItem.quantity line.
Proof.
  unfold validItem. intros [_ H]%andb_true_iff. by apply Qle_bool_iff.
Qed.

Lemma validItem_afterHook catalog line :
  validItem (afterHook catalog line) = validItem line.
Proof. unfold afterHook. by destruct (recomputed catalog line). Qed.

(** X5: a successful addToCart replies 201, leaves catalogue and orders as they
    were, and stores for the user a cart the hook has priced: a fixed point
    of the hook, with every line at quantity 1 or more.  The reply shows
    that cart's total and its lines as formatProductData renders them. *)
Theorem addToCart_success_stores_priced_cart isValid db userId fresh items db' status view :
  addToCart isValid db userId fresh items = (db', Json status view) →
  status = 201%nat
  ∧ Products db' = Products db
  ∧ Orders db' = Orders db
  ∧ ∃ doc, findOne userId (Carts db') = Some doc
           ∧ preSave (Products db') doc = doc
           ∧ Forall (λ line, 1 <= CartItem.quantity line) (Cart.products doc)
           ∧ CartView.totalPrice view = Cart.totalPrice doc
           ∧ CartView.products view
             = formatProducts (Products db') (Cart.products doc).
Proof.
  intros Hcall.
  destruct (addToCart_cases isValid db userId fresh items)
    as [[err Herr]|(checked & products & _ & _ & Hvalid & Hok & Hfind)];
    [congruence|].
  rewrite Hok in Hcall. injection Hcall as <- <- <-.
  split; [done|]. split; [done|]. split; [done|].
  eexists. split; [exact Hfind|]. simpl.
  split; [apply preSave_fixed|]. split; [|done].
  rewrite preSave_products. simpl. apply Forall_fmap, Forall_forall.
  intros line Hline. simpl. apply validItem_quantity.
  rewrite validItem_afterHook.
  rewrite forallb_forall in Hvalid. apply Hvalid. by apply list_elem_of_In.
Qed.

(** ** Writes stay with the user's cart *)

Lemma list_find_insert_same {A} (P : A → Prop) `{!∀ x, Decision (P x)}
    (l : list A) (i : nat) (x y : A) :
  l !! i = Some x → ¬ P x → ¬ P y → list_find P (<[i:=y]> l) = list_find P l.
Proof.
  revert i. induction l as [|a l IH]; intros i Hi Hx Hy; [done|].
  destruct i as [|i]; simpl in *.
  - injection Hi as ->. by rewrite !decide_False.
  - destruct (decide (P a)); [done|]. by rewrite IH.
Qed.

Lemma list_find_snoc_same {A} (P : A → Prop) `{!∀ x, Decision (P x)}
    (l : list A) (y : A) :
  ¬ P y → list_find P (l ++ [y]) = list_find P l.
Proof.
  intros Hy. induction l as [|a l IH]; simpl.
  - by rewrite decide_False.
  - destruct (decide (P a)); [done|]. by rewrite IH.
Qed.

Lemma list_find_delete_same {A} (P : A → Prop) `{!∀ x, Decision (P x)}
    (l : list A) (i : nat) (x : A) :
  l !! i = Some x → ¬ P x →
  snd <$> list_find P (delete i l) = snd <$> list_find P l.
Proof.
  revert i. induction l as [|a l IH]; intros i Hi Hx; [done|].
  destruct i as [|i]; simpl in *.
  - injection Hi as ->. rewrite decide_False by done.
    by destruct (list_find P l) as [[??]|].
  - destruct (decide (P a)); [done|].
    specialize (IH i Hi Hx).
    destruct (list_find P (delete i l)) as [[??]|], (list_find P l) as [[??]|];
      simpl in *; congruence.
Qed.

(** Writing a document over the stored cart with its [_id], or appending
    it, leaves every other user's cart where [findOne] finds it. *)
Lemma findOne_writeCart_other other doc carts :
  Cart.userId doc ≠ other →
  (∀ d, d ∈ carts → Cart._id d = Cart._id doc → Cart.userId d ≠ other) →
  findOne other (writeCart doc carts) = findOne other carts.
Proof.
  intros Hdoc Hold. unfold writeCart, findOne.
  destruct (list_find (λ d, Cart._id d = Cart._id doc) carts) as [[j d]|] eqn:Hj.
  - apply list_find_Some in Hj as (Hj & Hid & _).
    rewrite (list_find_insert_same _ carts j d doc); [done|done| |done].
    apply Hold; [by eapply list_elem_of_lookup_2|done].
  - by rewrite list_find_snoc_same.
Qed.

Lemma NoDup_fmap_elem {A B} (f : A → B) (l : list A) (x y : A) :
  NoDup (f <$> l) → x ∈ l → y ∈ l → f x = f y → x = y.
Proof.
  intros Hnd [i Hi]%list_elem_of_lookup [j Hj]%list_elem_of_lookup Hf.
  assert (i = j) as ->; [|congruence].
  eapply NoDup_lookup; [exact Hnd| |]; rewrite list_lookup_fmap.
  - by rewrite Hi.
  - rewrite Hj. simpl. by rewrite Hf.
Qed.

Lemma findOne_elem userId carts cart :
  findOne userId carts = Some cart → cart ∈ carts ∧ Cart.userId cart = userId.
Proof.
  intros (i & Hi & Hu & _)%findOne_Some. split; [|done].
  by eapply list_elem_of_lookup_2.
Qed.

Lemma startCart_owner db userId fresh d :
  NoDup (Cart._id <$> Carts db) →
  fresh ∉ Cart._id <$> Carts db →
  d ∈ Carts db →
  Cart._id d = Cart._id (startCart db userId fresh) →
  Cart.userId d = userId.
Proof.
  intros Hnd Hfresh Hd. unfold startCart.
  destruct (findOne userId (Carts db)) as [c|] eqn:Hc; simpl.
  - destruct (findOne_elem _ _ _ Hc) as [Hin Hu]. intros Hid.
    by rewrite (NoDup_fmap_elem Cart._id (Carts db) d c Hnd Hd Hin Hid).
  - intros Hid. destruct Hfresh. rewrite <- Hid. apply list_elem_of_fmap. eauto.
Qed.

(** X6: addToCart writes to the user's own cart only: with distinct cart ids
    and a fresh id for a new cart, it leaves the catalogue, the orders and
    every other user's cart as they were, whatever it replies. *)
Theorem addToCart_touches_only_own_cart isValid db userId fresh items other :
  NoDup (Cart._id <$> Carts db) →
  fresh ∉ Cart._id <$> Carts db →
  other ≠ userId →
  let db' := (addToCart isValid db userId fresh items).1 in
  Products db' = Products db
  ∧ Orders db' = Orders db
  ∧ findOne other (Carts db') = findOne other (Carts db).
Proof.
  intros Hnd Hfresh Hother db'. subst db'.
  destruct (addToCart_cases isValid db userId fresh items)
    as [[err ->]|(checked & products & _ & _ & _ & -> & _)]; [done|].
  simpl. split; [done|]. split; [done|].
  set (doc := preSave _ _).
  assert (Hid : Cart._id doc = Cart._id (startCart db userId fresh)
                ∧ Cart.userId doc = userId).
  { subst doc. destruct (preSave_ids (Products db)
      (Cart.mk (Cart._id (startCart db userId fresh))
         (Cart.userId (startCart db userId fresh)) products
         (Cart.totalPrice (startCart db userId fresh)))) as [-> ->].
    simpl. split; [done|]. apply startCart_userId. }
  destruct Hid as [Hid Hu].
  apply findOne_writeCart_other; [congruence|].
  intros d Hd Hsame. rewrite Hid in Hsame.
  rewrite (startCart_owner db userId fresh d Hnd Hfresh Hd Hsame). congruence.
Qed.

(** ** updateCart *)

Lemma patchHex_Some catalog body hex :
  patchHex catalog body = Some hex →
  ∃ product,
    findById (Patch.id body) catalog = Some product
    ∧ falsy (if falsy (Patch.color body)
             then Variant.hex <$> head (Product.colors product)
             else Patch.color body) = false
    ∧ default EmptyString
        (if falsy (Patch.color body)
         then Variant.hex <$> head (Product.colors product)
         else Patch.color body) = hex.
Proof.
  unfold patchHex.
  destruct (findById (Patch.id body) catalog) as [product|]; simpl; [|done].
  destruct (falsy (if falsy (Patch.color body) then _ else _)) eqn:Hf; [done|].
  intros H. exists product. split; [done|]. split; [done|]. by rewrite H.
Qed.

(** The ways updateCart ends: nothing written and no cart in the reply, or
    the chosen line overwritten or spliced out, the cart saved through the
    hook and returned. *)
Lemma updateCart_cases isValid db userId body :
  (∃ reply, updateCart isValid db userId body = (db, reply)
            ∧ ∀ status data, reply ≠ Updated status data)
  ∨ (∃ hex cart i line,
       isValid (Patch.id body) = true
       ∧ 0 <= Patch.quantity body
       ∧ patchHex (Products db) body = Some hex
       ∧ findOne userId (Carts db) = Some cart
       ∧ list_find (λ p, CartItem.id p = Patch.id body
                         ∧ Color.hex (CartItem.color p) = hex)
                   (Cart.products cart) = Some (i, line)
       ∧ let products :=
           if Qlt_bool 0 (Patch.quantity body)
           then <[i := CartItem.mk (CartItem.id line) (CartItem.color line)
                         (Patch.quantity body) (CartItem.subtotal line)]>
                  (Cart.products cart)
           else delete i (Cart.products cart) in
         let doc := preSave (Products db)
                      (Cart.mk (Cart._id cart) (Cart.userId cart) products
                         (Cart.totalPrice cart)) in
         forallb validItem products = true
         ∧ updateCart isValid db userId body
           = (mkDB (Products db) (writeCart doc (Carts db)) (Orders db),
              Updated 200 (CartDoc.mk doc (populate (Products db) <$> Cart.products doc)))
         ∧ findOne userId (writeCart doc (Carts db)) = Some doc).
Proof.
  unfold updateCart, patchHex.
  destruct (isValid (Patch.id body)) eqn:Hid; simpl; [|left; eauto].
  destruct (Qlt_bool (Patch.quantity body) 0) eqn:Hq; [left; eauto|].
  destruct (findById (Patch.id body) (Products db)) as [product|]; simpl;
    [|left; eauto].
  set (color := if falsy (Patch.color body) then _ else _).
  destruct (falsy color) eqn:Hf; [left; eauto|].
  destruct (findOne userId (Carts db)) as [cart|] eqn:Hcart; [|left; eauto].
  destruct (list_find _ (Cart.products cart)) as [[i line]|] eqn:Hline;
    [|left; eauto].
  set (products := if Qlt_bool 0 (Patch.quantity body) then _ else _).
  set (doc := Cart.mk _ _ products _).
  destruct (save db doc) as [x|[db' saved]] eqn:Hsave; [left; eauto|].
  right. exists (default EmptyString color), cart, i, line.
  split; [done|]. split.
  { unfold Qlt_bool in Hq. apply negb_false_iff, Qle_bool_iff in Hq. exact Hq. }
  split; [by destruct color|]. split; [done|]. split; [done|].
  fold products.
  assert (Hvalid : forallb validItem products = true).
  { unfold save in Hsave. simpl in Hsave. by destruct (forallb validItem products). }
  split; [done|].
  destruct (findOne_elem _ _ _ Hcart) as [_ Hu].
  destruct (findOne_save db doc db' saved) as (-> & -> & Hfind); [|done|].
  { simpl. rewrite Hu, Hcart. by intros c [= <-]. }
  simpl in Hfind. rewrite Hu in Hfind. done.
Qed.

Lemma forallb_Forall {A} (f : A → bool) (l : list A) :
  forallb f l = true ↔ Forall (λ x, f x = true) l.
Proof.
  rewrite forallb_forall, Forall_forall.
  split; intros H x Hx; apply H; by apply list_elem_of_In.
Qed.

Lemma quantity_afterHook catalog line :
  CartItem.quantity (afterHook catalog line) = CartItem.quantity line.
Proof. unfold afterHook. by destruct (recomputed catalog line). Qed.

Lemma lineQuantity_stored db userId cart id hex :
  findOne userId (Carts db) = Some cart →
  lineQuantity db userId id hex
  = CartItem.quantity
      <$> (snd <$> list_find (λ item, lineKey item = (id, hex)) (Cart.products cart)).
Proof.
  intros H. unfold lineQuantity. rewrite H. simpl.
  by destruct (list_find _ (Cart.products cart)) as [[??]|].
Qed.

Lemma find_key_afterHook catalog key (l : list CartItem.t) :
  CartItem.quantity
    <$> (snd <$> list_find (λ item, lineKey item = key) (afterHook catalog <$> l))
  = CartItem.quantity <$> (snd <$> list_find (λ item, lineKey item = key) l).
Proof.
  rewrite list_find_fmap.
  rewrite (list_find_ext _ (λ item, lineKey item = key))
    by (intros x; simpl; by rewrite lineKey_afterHook).
  destruct (list_find _ l) as [[i x]|]; simpl; [|done].
  by rewrite quantity_afterHook.
Qed.

Lemma find_key_pair id hex (l : list CartItem.t) :
  list_find (λ p, CartItem.id p = id ∧ Color.hex (CartItem.color p) = hex) l
  = list_find (λ item, lineKey item = (id, hex)) l.
Proof.
  apply list_find_ext. intros x. unfold lineKey. split.
  - by intros [-> ->].
  - by intros [= -> ->].
Qed.

(** The run of updateCart on a request that gets through to the save. *)
Lemma updateCart_runs isValid db userId body hex cart i line :
  isValid (Patch.id body) = true →
  0 <= Patch.quantity body →
  patchHex (Products db) body = Some hex →
  findOne userId (Carts db) = Some cart →
  list_find (λ item, lineKey item = (Patch.id body, hex)) (Cart.products cart)
  = Some (i, line) →
  let products :=
    if Qlt_bool 0 (Patch.quantity body)
    then <[i := CartItem.mk (CartItem.id line) (CartItem.color line)
                  (Patch.quantity body) (CartItem.subtotal line)]>
           (Cart.products cart)
    else delete i (Cart.products cart) in
  let doc := Cart.mk (Cart._id cart) (Cart.userId cart) products (Cart.totalPrice cart) in
  updateCart isValid db userId body
  = match save db doc with
    | inl x => (db, UpdateThrown x)
    | inr (db', cart) =>
        (db', Updated 200 (CartDoc.mk cart (populate (Products db') <$> Cart.products cart)))
    end.
Proof.
  intros Hid Hq (product & Hp & Hf & Hhex)%patchHex_Some Hcart Hline.
  unfold updateCart. cbv zeta. rewrite Hid, Hp. simpl.
  assert (Qlt_bool (Patch.quantity body) 0 = false) as ->.
  { unfold Qlt_bool. apply negb_false_iff, Qle_bool_iff. exact Hq. }
  rewrite Hf, Hhex, Hcart, find_key_pair. setoid_rewrite Hline. done.
Qed.

Lemma lineQuantity_Some db userId id hex q :
  lineQuantity db userId id hex = Some q →
  ∃ cart i line,
    findOne userId (Carts db) = Some cart
    ∧ list_find (λ item, lineKey item = (id, hex)) (Cart.products cart) = Some (i, line)
    ∧ CartItem.quantity line = q.
Proof.
  unfold lineQuantity. destruct (findOne userId (Carts db)) as [cart|]; [|done].
  simpl. destruct (list_find _ (Cart.products cart)) as [[i line]|] eqn:E; [|done].
  simpl. intros [= <-]. by exists cart, i, line.
Qed.

Lemma storedLines_cart db userId cart :
  findOne userId (Carts db) = Some cart → storedLines db userId = Cart.products cart.
Proof. intros H. unfold storedLines. by rewrite H. Qed.

Lemma forallb_insert_false {A} (f : A → bool) (l : list A) (i : nat) (x y : A) :
  l !! i = Some x → f y = false → forallb f (<[i:=y]> l) = false.
Proof.
  intros Hi Hy. destruct (forallb f (<[i:=y]> l)) eqn:H; [|done].
  apply forallb_Forall in H. rewrite Forall_forall in H.
  rewrite (H y) in Hy; [done|].
  apply list_elem_of_lookup. exists i. apply list_lookup_insert_eq.
  by eapply lookup_lt_Some.
Qed.

(** X8: updateCart replaces the quantity of the line outright: for a valid id,
    a quantity of 1 or more and a line of the user's cart with the targeted
    (product, hex), the call replies 200 and the stored line has exactly the
    requested quantity, whatever stock its variant has. *)
Theorem updateCart_overwrites_quantity isValid db userId body hex old :
  isValid (Patch.id body) = true →
  1 <= Patch.quantity body →
  patchHex (Products db) body = Some hex →
  lineQuantity db userId (Patch.id body) hex = Some old →
  Forall (λ line, validItem line = true) (storedLines db userId) →
  let result := updateCart isValid db userId body in
  (∃ data, result.2 = Updated 200 data
           ∧ findOne userId (Carts result.1) = Some (CartDoc.cart data))
  ∧ lineQuantity result.1 userId (Patch.id body) hex = Some (Patch.quantity body).
Proof.
  intros Hid Hq Hhex (cart & i & line & Hcart & Hline & _)%lineQuantity_Some Hvalid result.
  subst result. rewrite (storedLines_cart _ _ _ Hcart) in Hvalid.
  assert (H0 : 0 <= Patch.quantity body) by (apply Qle_trans with 1; [done|exact Hq]).
  rewrite (updateCart_runs isValid db userId body hex cart i line Hid H0 Hhex Hcart Hline).
  assert (Qlt_bool 0 (Patch.quantity body) = true) as ->.
  { unfold Qlt_bool. apply negb_true_iff.
    destruct (Qle_bool (Patch.quantity body) 0) eqn:H; [|done].
    apply Qle_bool_iff in H. exfalso.
    apply (Qle_not_lt 1 0); [by apply Qle_trans with (Patch.quantity body)|done]. }
  pose proof Hline as Hl. apply list_find_Some in Hl as (Hi & Hkey & Hmin).
  set (line' := CartItem.mk _ _ (Patch.quantity body) _).
  set (doc := Cart.mk _ _ (<[i:=line']> (Cart.products cart)) _).
  assert (Hline' : validItem line' = true).
  { rewrite Forall_forall in Hvalid.
    pose proof (Hvalid line (list_elem_of_lookup_2 _ _ _ Hi)) as Hv.
    unfold validItem in *. simpl.
    apply andb_true_iff in Hv as [-> _]. simpl. by apply Qle_bool_iff. }
  destruct (findOne_elem _ _ _ Hcart) as [_ Hu].
  destruct (save db doc) as [x|[db' saved]] eqn:Hsave.
  { unfold save in Hsave. simpl in Hsave.
    assert (forallb validItem (<[i:=line']> (Cart.products cart)) = true) as Hall
      by (apply forallb_Forall; by apply Forall_insert).
    by rewrite Hall in Hsave. }
  destruct (findOne_save db doc db' saved) as (Hsaved & _ & Hfind); [|done|].
  { simpl. rewrite Hu, Hcart. by intros c [= <-]. }
  simpl in Hfind. rewrite Hu in Hfind. simpl.
  split; [eexists; split; [done|exact Hfind]|].
  rewrite (lineQuantity_stored _ _ _ _ _ Hfind), Hsaved, preSave_products.
  simpl. rewrite find_key_afterHook.
  assert (list_find (λ item, lineKey item = (Patch.id body, hex))
            (<[i:=line']> (Cart.products cart)) = Some (i, line')) as ->; [|done].
  apply list_find_insert_Some. right. left.
  split; [done|]. split; [done|]. split; [by eapply lookup_lt_Some|].
  split; [exact Hkey|exact Hmin].
Qed.

Lemma lineQuantity_written catalog carts orders userId cart id hex :
  findOne userId carts = Some cart →
  lineQuantity (mkDB catalog carts orders) userId id hex
  = CartItem.quantity
      <$> (snd <$> list_find (λ item, lineKey item = (id, hex)) (Cart.products cart)).
Proof. apply (lineQuantity_stored (mkDB catalog carts orders)). Qed.

Lemma storedLines_written catalog carts orders userId cart :
  findOne userId carts = Some cart →
  storedLines (mkDB catalog carts orders) userId = Cart.products cart.
Proof. apply (storedLines_cart (mkDB catalog carts orders)). Qed.

Lemma Qlt_bool_false x y : y <= x → Qlt_bool x y = false.
Proof. intros H. unfold Qlt_bool. by apply negb_false_iff, Qle_bool_iff. Qed.

Lemma Qlt_bool_true x y : x < y → Qlt_bool x y = true.
Proof.
  intros H. unfold Qlt_bool. apply negb_true_iff.
  destruct (Qle_bool y x) eqn:E; [|done].
  apply Qle_bool_iff in E. by destruct (Qle_not_lt _ _ E).
Qed.

(** X9: a quantity of 0 removes the line: for a valid id and a line of the
    user's cart with the targeted (product, hex), the call replies 200, the
    stored cart has one line less and, lines being one per key, none left
    with that key. *)
Theorem updateCart_zero_removes_line isValid db userId body hex old :
  isValid (Patch.id body) = true →
  Patch.quantity body == 0 →
  patchHex (Products db) body = Some hex →
  lineQuantity db userId (Patch.id body) hex = Some old →
  Forall (λ line, validItem line = true) (storedLines db userId) →
  NoDup (lineKey <$> storedLines db userId) →
  let result := updateCart isValid db userId body in
  (∃ data, result.2 = Updated 200 data
           ∧ findOne userId (Carts result.1) = Some (CartDoc.cart data))
  ∧ lineQuantity result.1 userId (Patch.id body) hex = None
  ∧ S (length (storedLines result.1 userId)) = length (storedLines db userId).
Proof.
  intros Hid Hq Hhex (cart & i & line & Hcart & Hline & _)%lineQuantity_Some
    Hvalid Hnd result.
  subst result. rewrite (storedLines_cart _ _ _ Hcart) in Hvalid, Hnd |- *.
  assert (H0 : 0 <= Patch.quantity body) by (rewrite Hq; apply Qle_refl).
  rewrite (updateCart_runs isValid db userId body hex cart i line Hid H0 Hhex Hcart Hline).
  rewrite (Qlt_bool_false 0 (Patch.quantity body)) by (rewrite Hq; apply Qle_refl).
  pose proof Hline as Hl. apply list_find_Some in Hl as (Hi & Hkey & _).
  set (doc := Cart.mk _ _ (delete i (Cart.products cart)) _).
  destruct (findOne_elem _ _ _ Hcart) as [_ Hu].
  destruct (save db doc) as [x|[db' saved]] eqn:Hsave.
  { unfold save in Hsave. simpl in Hsave.
    assert (forallb validItem (delete i (Cart.products cart)) = true) as Hall
      by (apply forallb_Forall; by apply Forall_delete).
    by rewrite Hall in Hsave. }
  destruct (findOne_save db doc db' saved) as (Hsaved & _ & Hfind); [|done|].
  { simpl. rewrite Hu, Hcart. by intros c [= <-]. }
  simpl in Hfind. rewrite Hu in Hfind. simpl.
  split; [eexists; split; [done|exact Hfind]|].
  rewrite (lineQuantity_stored _ _ _ _ _ Hfind), (storedLines_cart _ _ _ Hfind).
  rewrite Hsaved, preSave_products. simpl. rewrite find_key_afterHook. split.
  - assert (list_find (λ item, lineKey item = (Patch.id body, hex))
              (delete i (Cart.products cart)) = None) as ->; [|done].
    apply list_find_None, Forall_forall. intros other Hother Hsame.
    rewrite delete_take_drop in Hother.
    rewrite <- (take_drop_middle _ _ _ Hi), fmap_app, fmap_cons in Hnd.
    apply NoDup_app in Hnd as (_ & Hfront & Hback).
    apply NoDup_cons in Hback as [Hback _].
    apply elem_of_app in Hother as [Hother|Hother].
    + apply (Hfront (lineKey other)).
      * apply list_elem_of_fmap. eauto.
      * rewrite Hsame, <- Hkey. apply list_elem_of_here.
    + apply Hback. rewrite Hkey, <- Hsame. apply list_elem_of_fmap. eauto.
  - rewrite length_fmap, length_delete by (by eexists).
    pose proof (lookup_lt_Some _ _ _ Hi). lia.
Qed.

(** X10: a quantity strictly between 0 and 1 passes the handler's own check but
    not the schema's [min: 1]: the save throws, no reply is sent by the
    handler and nothing is stored. *)
Theorem updateCart_fraction_is_thrown isValid db userId body hex old :
  isValid (Patch.id body) = true →
  0 < Patch.quantity body →
  Patch.quantity body < 1 →
  patchHex (Products db) body = Some hex →
  lineQuantity db userId (Patch.id body) hex = Some old →
  updateCart isValid db userId body = (db, UpdateThrown ValidationError).
Proof.
  intros Hid Hpos Hlt Hhex (cart & i & line & Hcart & Hline & _)%lineQuantity_Some.
  rewrite (updateCart_runs isValid db userId body hex cart i line Hid
             (Qlt_le_weak _ _ Hpos) Hhex Hcart Hline).
  rewrite (Qlt_bool_true 0 (Patch.quantity body) Hpos).
  apply list_find_Some in Hline as (Hi & _ & _).
  unfold save. simpl.
  rewrite (forallb_insert_false validItem _ i line); [done|done|].
  unfold validItem. simpl. apply andb_false_iff. right.
  destruct (Qle_bool 1 (Patch.quantity body)) eqn:E; [|done].
  apply Qle_bool_iff in E. by destruct (Qle_not_lt _ _ E).
Qed.

(** X11: updateCart leaves every line but the targeted one at its quantity,
    whatever it replies. *)
Theorem updateCart_keeps_other_lines isValid db userId body (id' : ObjectId) hex' :
  (∀ hex, patchHex (Products db) body = Some hex →
          (id', hex') ≠ (Patch.id body, hex)) →
  lineQuantity (updateCart isValid db userId body).1 userId id' hex'
  = lineQuantity db userId id' hex'.
Proof.
  intros Hother.
  destruct (updateCart_cases isValid db userId body)
    as [(reply & -> & _)|(hex & cart & i & line & _ & _ & Hhex & Hcart & Hline & _ & -> & Hfind)];
    [done|].
  simpl. rewrite (lineQuantity_written _ _ _ _ _ _ _ Hfind).
  rewrite (lineQuantity_stored _ _ _ _ _ Hcart).
  rewrite preSave_products. simpl. rewrite find_key_afterHook.
  apply list_find_Some in Hline as (Hi & [Hid Hh] & _).
  assert (Hkey : lineKey line ≠ (id', hex')).
  { unfold lineKey. rewrite Hid, Hh. intros E. by apply (Hother hex Hhex). }
  destruct (Qlt_bool 0 (Patch.quantity body)).
  - by rewrite (list_find_insert_same _ _ i line).
  - by rewrite (list_find_delete_same _ _ i line).
Qed.

(** X12: updateCart keeps the cart at one line per (product, color hex). *)
Theorem updateCart_one_line_per_key isValid db userId body :
  NoDup (lineKey <$> storedLines db userId) →
  NoDup (lineKey <$> storedLines (updateCart isValid db userId body).1 userId).
Proof.
  intros Hnd.
  destruct (updateCart_cases isValid db userId body)
    as [(reply & -> & _)|(hex & cart & i & line & _ & _ & _ & Hcart & Hline & _ & -> & Hfind)];
    [done|].
  simpl. rewrite (storedLines_written _ _ _ _ _ Hfind).
  rewrite (storedLines_cart _ _ _ Hcart) in Hnd.
  rewrite preSave_products. simpl. rewrite <- list_fmap_compose.
  rewrite (list_fmap_ext (lineKey ∘ afterHook (Products db)) lineKey)
    by (intros; apply lineKey_afterHook).
  apply list_find_Some in Hline as (Hi & _ & _).
  destruct (Qlt_bool 0 (Patch.quantity body)).
  - rewrite list_fmap_insert. unfold lineKey at 1. simpl.
    rewrite list_insert_id; [done|]. by rewrite list_lookup_fmap, Hi.
  - rewrite list_fmap_delete.
    apply (sublist_NoDup _ (lineKey <$> Cart.products cart));
      first [apply sublist_delete | done].
Qed.

(** X13: updateCart writes to the user's own cart only: with distinct cart ids
    it leaves the catalogue, the orders and every other user's cart as they
    were, whatever it replies. *)
Theorem updateCart_touches_only_own_cart isValid db userId body other :
  NoDup (Cart._id <$> Carts db) →
  other ≠ userId →
  let db' := (updateCart isValid db userId body).1 in
  Products db' = Products db
  ∧ Orders db' = Orders db
  ∧ findOne other (Carts db') = findOne other (Carts db).
Proof.
  intros Hnd Hother db'. subst db'.
  destruct (updateCart_cases isValid db userId body)
    as [(reply & -> & _)|(hex & cart & i & line & _ & _ & _ & Hcart & _ & _ & -> & _)];
    [done|].
  simpl. split; [done|]. split; [done|].
  destruct (findOne_elem _ _ _ Hcart) as [Hin Hu].
  set (doc := preSave _ _).
  assert (Hid : Cart._id doc = Cart._id cart ∧ Cart.userId doc = userId).
  { subst doc. by destruct (preSave_ids (Products db)
      (Cart.mk (Cart._id cart) (Cart.userId cart)
         (if Qlt_bool 0 (Patch.quantity body)
          then <[i:=CartItem.mk (CartItem.id line) (CartItem.color line)
                      (Patch.quantity body) (CartItem.subtotal line)]>
                 (Cart.products cart)
          else delete i (Cart.products cart))
         (Cart.totalPrice cart))) as [-> ->]. }
  destruct Hid as [Hid Hdoc].
  apply findOne_writeCart_other; [congruence|].
  intros d Hd Hsame. rewrite Hid in Hsame.
  rewrite (NoDup_fmap_elem Cart._id (Carts db) d cart Hnd Hd Hin Hsame). congruence.
Qed.

(** X14: updateCart either writes nothing and sends no cart, or replies 200
    with the cart it stored for the user: a cart the hook has priced (a
    fixed point of the hook) whose lines all have a quantity of 1 or more. *)
Theorem updateCart_writes_only_priced_cart isValid db userId body :
  let result := updateCart isValid db userId body in
  (result.1 = db ∧ ∀ status data, result.2 ≠ Updated status data)
  ∨ (∃ doc,
       result.2 = Updated 200 (CartDoc.mk doc (populate (Products db) <$> Cart.products doc))
       ∧ findOne userId (Carts result.1) = Some doc
       ∧ preSave (Products db) doc = doc
       ∧ Forall (λ line, 1 <= CartItem.quantity line) (Cart.products doc)
       ∧ Products result.1 = Products db
       ∧ Orders result.1 = Orders db).
Proof.
  intros result. subst result.
  destruct (updateCart_cases isValid db userId body)
    as [(reply & -> & Hno)|(hex & cart & i & line & _ & _ & _ & _ & _ & Hvalid & -> & Hfind)];
    [by left|].
  right. eexists. split; [done|]. split; [exact Hfind|].
  split; [apply preSave_fixed|]. split; [|done].
  rewrite preSave_products. simpl. apply Forall_fmap, Forall_forall.
  intros l Hl. simpl. apply validItem_quantity. rewrite validItem_afterHook.
  apply forallb_Forall in Hvalid. rewrite Forall_forall in Hvalid. by apply Hvalid.
Qed.

(** ** placeOrder, beyond the stock check *)

Lemma checkStock_None catalog (lines : list CartItem.t) :
  checkStock (populate catalog <$> lines) = None ↔ Forall (orderable catalog) lines.
Proof.
  induction lines as [|line rest IH]; simpl.
  - split; [constructor|done].
  - rewrite Forall_cons. unfold orderable at 1.
    destruct (findById (CartItem.id line) catalog) as [p|] eqn:Hp.
    + unfold exceeds. destruct (Product.quantity p) as [available|] eqn:Ha.
      * destruct (Qlt_bool available (CartItem.quantity line)) eqn:Hx.
        -- split; [done|]. intros [(p' & Hp' & Hle) _]. exfalso.
           injection Hp' as <-. specialize (Hle available Ha).
           rewrite (Qlt_bool_false _ _ Hle) in Hx. done.
        -- rewrite IH. split; [|by intros [_ ?]].
           intros Hrest. split; [|done]. exists p. split; [done|].
           intros a. rewrite Ha. intros [= <-].
           unfold Qlt_bool in Hx. by apply negb_false_iff, Qle_bool_iff in Hx.
      * rewrite IH. split; [|by intros [_ ?]].
        intros Hrest. split; [|done]. exists p. split; [done|].
        intros a. by rewrite Ha.
    + split; [done|]. by intros [(p' & Hp' & _) _].
Qed.

Lemma orderable_resolves catalog (lines : list CartItem.t) :
  Forall (orderable catalog) lines →
  is_Some (mapM orderItem (populate catalog <$> lines)).
Proof.
  intros H. apply mapM_is_Some, Forall_fmap, Forall_forall.
  intros line Hline. rewrite Forall_forall in H.
  destruct (H line Hline) as (p & Hp & _). simpl.
  unfold orderItem, populate. simpl. rewrite Hp. simpl. by eexists.
Qed.

(** X15: placeOrder creates an order exactly when the user id is well-formed,
    the user has a cart with at least one line, every line's product
    resolves and no line asks for more than the product-level quantity of
    its product (a product without one never stops an order). *)
Theorem placeOrder_succeeds_iff isValid bare db userId body :
  (∃ order, (placeOrder isValid bare db userId body).2 = Json 201 order)
  ↔ isValid userId = true
    ∧ ∃ cart, findOne userId (Carts db) = Some cart
              ∧ Cart.products cart ≠ []
              ∧ Forall (orderable (Products db)) (Cart.products cart).
Proof.
  unfold placeOrder. destruct (isValid userId); simpl; [|split; [by intros [? ?]|by intros [? _]]].
  destruct (findOne userId (Carts db)) as [cart|];
    [|split; [by intros [? ?]|by intros (_ & ? & ? & _)]].
  destruct (Cart.products cart) as [|first rest] eqn:Hlines.
  { simpl. split; [by intros [? ?]|]. by intros (_ & c & [= <-] & ? & _). }
  rewrite <- Hlines.
  destruct (populate (Products db) <$> Cart.products cart) as [|pfirst prest] eqn:Hpop.
  { rewrite Hlines in Hpop. done. }
  rewrite <- Hpop.
  destruct (checkStock (populate (Products db) <$> Cart.products cart)) as [e|] eqn:Hcheck.
  - split.
    + destruct (mapM orderItem _); by intros [? ?].
    + intros (_ & c & [= <-] & _ & Hall). apply checkStock_None in Hall. congruence.
  - apply checkStock_None in Hcheck.
    destruct (orderable_resolves _ _ Hcheck) as [items ->]. simpl.
    split; [|by eexists]. intros _. split; [done|]. exists cart.
    split; [done|]. split; [by rewrite Hlines|done].
Qed.

Lemma cents_toFixed2 (x : Q) : cents (toFixed2 x).
Proof.
  apply cents_iff. unfold toFixed2. destruct (Qle_bool 0 x).
  - by eexists.
  - exists (- Qfloor (- x * 100 + (1 # 2)))%Z. reflexivity.
Qed.

(** X16: the order takes its total from the cart as it was last saved; it
    is not recomputed at checkout.  For a cart stored by a save, [totalAmount]
    is the total of that save (the sum, over the lines whose product
    resolved then, of the quantity times the unit price of then) rounded to
    two decimals, whatever the catalogue is now; rounding it again changes
    nothing. *)
Theorem placeOrder_total_is_rounded_saved_total isValid bare db userId body saved doc db' status order :
  findOne userId (Carts db) = Some (preSave saved doc) →
  placeOrder isValid bare db userId body = (db', Json status order) →
  Order.totalAmount order
  == toFixed2 (sumQ (omap (recomputed saved) (Cart.products doc)))
  ∧ cents (Order.totalAmount order).
Proof.
  intros Hcart Hcall.
  destruct (placeOrder_created_order _ _ _ _ _ _ _ _ Hcall) as (cart & Hc & -> & _).
  rewrite Hcart in Hc. injection Hc as <-.
  split; [|apply cents_toFixed2].
  by rewrite (preSave_totalPrice saved doc).
Qed.

(** X17: the order placeOrder creates is appended to the orders and is the one
    in the reply; it carries the user's id, the three fields of the request
    and one item per cart line, in order, with the product's id and name,
    the line's quantity and color, and the line's subtotal as the price. *)
Theorem placeOrder_order_snapshot isValid bare db userId body db' status order :
  placeOrder isValid bare db userId body = (db', Json status order) →
  status = 201%nat
  ∧ Orders db' = Orders db ++ [order]
  ∧ Order.userId order = userId
  ∧ Order.shippingAddress order = Checkout.shippingAddress body
  ∧ Order.paymentMethod order = Checkout.paymentMethod body
  ∧ Order.transactionId order = Checkout.transactionId body
  ∧ ∃ cart,
      findOne userId (Carts db) = Some cart
      ∧ length (Order.orderItems order) = length (Cart.products cart)
      ∧ Forall2 (λ line o,
                   ∃ p, findById (CartItem.id line) (Products db) = Some p
                        ∧ OrderItem.id o = Product._id p
                        ∧ OrderItem.name o = Product.name p
                        ∧ OrderItem.quantity o = CartItem.quantity line
                        ∧ OrderItem.color o = CartItem.color line
                        ∧ OrderItem.price o = CartItem.subtotal line)
                (Cart.products cart) (Order.orderItems order).
Proof.
  intros Hcall.
  destruct (placeOrder_created_order _ _ _ _ _ _ _ _ Hcall) as (cart & Hc & _ & Hitems).
  unfold placeOrder in Hcall. rewrite Hc in Hcall.
  destruct (negb (isValid userId)); [done|].
  destruct (populate (Products db) <$> Cart.products cart); [done|].
  destruct (mapM orderItem _); [|done].
  destruct (checkStock _); [done|].
  injection Hcall as <- <- <-. simpl.
  do 6 (split; [done|]). exists cart. split; [done|].
  split; [symmetry; by eapply Forall2_length|].
  eapply Forall2_impl; [exact Hitems|].
  intros line o (p & Hp & ->). by exists p.
Qed.

Lemma updateOne_findById id id' delta catalog :
  findById id (updateOne id' delta catalog)
  = if decide (id = id') then inc delta <$> findById id catalog
    else findById id catalog.
Proof.
  unfold updateOne, findById.
  destruct (list_find (λ p, Product._id p = id') catalog) as [[i p]|] eqn:Hfind.
  - pose proof Hfind as (Hi & Hp & Hmin)%list_find_Some.
    destruct (decide (id = id')) as [->|Hne].
    + rewrite Hfind. simpl.
      assert (list_find (λ p, Product._id p = id') (<[i:=inc delta p]> catalog)
              = Some (i, inc delta p)) as ->; [|done].
      apply list_find_insert_Some. right. left.
      split; [done|]. split; [done|]. split; [by eapply lookup_lt_Some|done].
    + rewrite (list_find_insert_same _ catalog i p); [done|done| |]; simpl; congruence.
  - destruct (decide (id = id')) as [->|Hne]; [|done]. by rewrite Hfind.
Qed.

Lemma orderedOf_cons id line (rest : list CartItem.t) :
  orderedOf id (line :: rest)
  == (if decide (CartItem.id line = id) then CartItem.quantity line else 0)
     + orderedOf id rest.
Proof.
  unfold orderedOf. rewrite filter_cons.
  destruct (decide (CartItem.id line = id)).
  - rewrite fmap_cons, sumQ_cons. reflexivity.
  - ring.
Qed.

Lemma decrementAll_level catalog0 (lines : list CartItem.t) catalog id :
  Forall (λ line, is_Some (findById (CartItem.id line) catalog0)) lines →
  productLevel (decrementAll (populate catalog0 <$> lines) catalog) id
  == productLevel catalog id
     - match findById id catalog with
       | Some _ => orderedOf id lines
       | None => 0
       end.
Proof.
  intros Hall. revert catalog.
  induction Hall as [|line rest [p Hp] _ IH]; intros catalog.
  - unfold decrementAll, orderedOf, sumQ. simpl. destruct (findById id catalog); ring.
  - unfold decrementAll in *. rewrite fmap_cons. cbn [fold_left].
    unfold populate at 2. cbn [Populated.id Populated.quantity]. rewrite Hp.
    destruct (findById_Some _ _ _ Hp) as [_ Hid]. rewrite Hid.
    rewrite IH. unfold productLevel. rewrite updateOne_findById.
    pose proof (orderedOf_cons id line rest) as Hcons.
    destruct (decide (id = CartItem.id line)) as [->|Hne].
    + rewrite decide_True in Hcons by done.
      destruct (findById (CartItem.id line) catalog) as [q|]; simpl; [|ring].
      rewrite Hcons. ring.
    + rewrite decide_False in Hcons by congruence.
      destruct (findById id catalog); [rewrite Hcons|]; ring.
Qed.

(** X18: a successful placeOrder takes the product-level quantity of every
    product of the catalogue down by the units the cart's lines ask for, all
    colors together (an unset quantity counts from 0). *)
Theorem placeOrder_decrements_product_quantity isValid bare db userId body db' status order cart id :
  placeOrder isValid bare db userId body = (db', Json status order) →
  findOne userId (Carts db) = Some cart →
  is_Some (findById id (Products db)) →
  productLevel (Products db') id
  == productLevel (Products db) id - orderedOf id (Cart.products cart).
Proof.
  intros Hcall Hcart [p Hp].
  unfold placeOrder in Hcall. rewrite Hcart in Hcall.
  destruct (negb (isValid userId)); [done|].
  destruct (populate (Products db) <$> Cart.products cart) as [|pfirst prest] eqn:E;
    [done|].
  rewrite <- E in Hcall.
  destruct (mapM orderItem _) as [items|] eqn:Hitems; [|done].
  destruct (checkStock _) eqn:Hcheck; [done|].
  injection Hcall as <- _. simpl.
  apply checkStock_None in Hcheck.
  rewrite decrementAll_level, Hp; [done|].
  eapply Forall_impl; [exact Hcheck|]. intros line (q & Hq & _). by eexists.
Qed.

(** ** The cart view *)

Lemma length_omap_le {A B} (f : A → option B) (l : list A) :
  (length (omap f l) ≤ length l)%nat.
Proof.
  induction l as [|x l IH]; [done|]. rewrite omap_cons.
  destruct (f x); simpl; lia.
Qed.

(** X22: every line getUserCart shows comes from a stored line whose product
    and color variant resolve; it carries the variant's color and the
    product's effective price, a quantity above neither the stored one nor
    the variant's stock, and as subtotal that quantity times the price,
    rounded.  Lines that do not resolve are left out. *)
Theorem getUserCart_shows_lines_within_stock db userId status view :
  getUserCart db userId = Json status view →
  status = 200%nat
  ∧ ∃ cart,
      findOne userId (Carts db) = Some cart
      ∧ CartView.totalPrice view = Cart.totalPrice cart
      ∧ (length (CartView.products view) ≤ length (Cart.products cart))%nat
      ∧ Forall (λ f, ∃ line p v,
                   line ∈ Cart.products cart
                   ∧ findById (CartItem.id line) (Products db) = Some p
                   ∧ findByHex (Color.hex (CartItem.color line)) (Product.colors p)
                     = Some v
                   ∧ Formatted._id f = Product._id p
                   ∧ Formatted.name f = Product.name p
                   ∧ Formatted.color f = Color.mk (Variant.name v) (Variant.hex v)
                   ∧ Formatted.price f = effectivePrice p
                   ∧ Formatted.quantity f <= CartItem.quantity line
                   ∧ Formatted.quantity f <= Variant.quantity v
                   ∧ Formatted.subtotal f
                     = toFixed2 (Formatted.quantity f * Formatted.price f))
               (CartView.products view).
Proof.
  unfold getUserCart. destruct (findOne userId (Carts db)) as [cart|]; [|done].
  intros [= <- <-]. split; [done|]. exists cart. split; [done|]. split; [done|].
  simpl. split; [apply length_omap_le|].
  apply Forall_forall. intros f [line [Hline Hf]]%list_elem_of_omap.
  unfold formatLine, populate, formatProductData in Hf. simpl in Hf.
  destruct (findById (CartItem.id line) (Products db)) as [p|] eqn:Hp; [|done].
  destruct (findByHex _ (Product.colors p)) as [v|] eqn:Hv; [|done].
  injection Hf as <-. exists line, p, v. simpl.
  do 7 (split; [done|]). split; [apply Q.le_min_l|]. split; [|done].
  rewrite <- (or_zero_id (Variant.quantity v)) at 2. apply Q.le_min_r.
Qed.

(** ** The price range of the catalogue *)

Lemma Qmin_pick (a x : Q) : Qmin a x = a ∨ Qmin a x = x.
Proof. unfold Qmin, GenericMinMax.gmin. destruct (a ?= x); auto. Qed.

Lemma Qmax_pick (a x : Q) : Qmax a x = a ∨ Qmax a x = x.
Proof. unfold Qmax, GenericMinMax.gmax. destruct (a ?= x); auto. Qed.

Lemma fold_accMin_Some (l : list Q) (a : Q) :
  fold_left accMin l (Some a) = Some (fold_left Qmin l a).
Proof. revert a. induction l as [|x l IH]; intros a; simpl; [done|apply IH]. Qed.

Lemma fold_accMax_Some (l : list Q) (a : Q) :
  fold_left accMax l (Some a) = Some (fold_left Qmax l a).
Proof. revert a. induction l as [|x l IH]; intros a; simpl; [done|apply IH]. Qed.

Lemma fold_Qmin_spec (l : list Q) (a : Q) :
  fold_left Qmin l a <= a
  ∧ Forall (λ x, fold_left Qmin l a <= x) l
  ∧ (fold_left Qmin l a = a ∨ fold_left Qmin l a ∈ l).
Proof.
  revert a. induction l as [|x l IH]; intros a; simpl.
  - split; [apply Qle_refl|]. split; [constructor|by left].
  - destruct (IH (Qmin a x)) as (Hle & Hall & Hatt).
    split; [apply Qle_trans with (Qmin a x); [done|apply Q.le_min_l]|].
    split.
    + constructor; [|done]. apply Qle_trans with (Qmin a x); [done|apply Q.le_min_r].
    + destruct Hatt as [->|Hin]; [|right; by apply list_elem_of_further].
      destruct (Qmin_pick a x) as [->| ->]; [by left|right; apply list_elem_of_here].
Qed.

Lemma fold_Qmax_spec (l : list Q) (a : Q) :
  a <= fold_left Qmax l a
  ∧ Forall (λ x, x <= fold_left Qmax l a) l
  ∧ (fold_left Qmax l a = a ∨ fold_left Qmax l a ∈ l).
Proof.
  revert a. induction l as [|x l IH]; intros a; simpl.
  - split; [apply Qle_refl|]. split; [constructor|by left].
  - destruct (IH (Qmax a x)) as (Hle & Hall & Hatt).
    split; [apply Qle_trans with (Qmax a x); [apply Q.le_max_l|done]|].
    split.
    + constructor; [|done]. apply Qle_trans with (Qmax a x); [apply Q.le_max_r|done].
    + destruct Hatt as [->|Hin]; [|right; by apply list_elem_of_further].
      destruct (Qmax_pick a x) as [->| ->]; [by left|right; apply list_elem_of_here].
Qed.

Lemma getMinEffectivePrice_cons p catalog :
  getMinEffectivePrice (p :: catalog)
  = fold_left Qmin (calculateEffectivePrice <$> catalog) (calculateEffectivePrice p).
Proof.
  unfold getMinEffectivePrice.
  change (fold_left accMin (calculateEffectivePrice <$> p :: catalog) None)
    with (fold_left accMin (calculateEffectivePrice <$> catalog)
            (Some (calculateEffectivePrice p))).
  by rewrite fold_accMin_Some.
Qed.

Lemma getMaxEffectivePrice_cons p catalog :
  getMaxEffectivePrice (p :: catalog)
  = fold_left Qmax (calculateEffectivePrice <$> catalog) (calculateEffectivePrice p).
Proof.
  unfold getMaxEffectivePrice.
  change (fold_left accMax (calculateEffectivePrice <$> p :: catalog) None)
    with (fold_left accMax (calculateEffectivePrice <$> catalog)
            (Some (calculateEffectivePrice p))).
  by rewrite fold_accMax_Some.
Qed.

Lemma price_between catalog p :
  p ∈ catalog →
  getMinEffectivePrice catalog <= calculateEffectivePrice p
  ∧ calculateEffectivePrice p <= getMaxEffectivePrice catalog.
Proof.
  destruct catalog as [|q rest]; [by intros ?%elem_of_nil|].
  rewrite getMinEffectivePrice_cons, getMaxEffectivePrice_cons.
  destruct (fold_Qmin_spec (calculateEffectivePrice <$> rest) (calculateEffectivePrice q))
    as (Hlo & Hlos & _).
  destruct (fold_Qmax_spec (calculateEffectivePrice <$> rest) (calculateEffectivePrice q))
    as (Hhi & His & _).
  intros [->|Hin]%elem_of_cons; [done|].
  rewrite Forall_forall in Hlos, His.
  split; [apply Hlos|apply His]; apply list_elem_of_fmap; eauto.
Qed.

(** X23: the ends of the price range are prices of products of the catalogue
    and bracket the price of every product: no product is cheaper than
    what getMinEffectivePrice replies or dearer than what
    getMaxEffectivePrice replies. *)
Theorem price_range_brackets_catalogue catalog p :
  p ∈ catalog →
  getMinEffectivePrice catalog <= calculateEffectivePrice p
  ∧ calculateEffectivePrice p <= getMaxEffectivePrice catalog
  ∧ ∃ lo hi, lo ∈ catalog ∧ hi ∈ catalog
             ∧ getMinEffectivePrice catalog = calculateEffectivePrice lo
             ∧ getMaxEffectivePrice catalog = calculateEffectivePrice hi.
Proof.
  intros Hp. destruct (price_between catalog p Hp) as [Hlo Hhi].
  split; [done|]. split; [done|].
  destruct catalog as [|q rest]; [by apply elem_of_nil in Hp|].
  rewrite getMinEffectivePrice_cons, getMaxEffectivePrice_cons.
  destruct (fold_Qmin_spec (calculateEffectivePrice <$> rest) (calculateEffectivePrice q))
    as (_ & _ & Hmin).
  destruct (fold_Qmax_spec (calculateEffectivePrice <$> rest) (calculateEffectivePrice q))
    as (_ & _ & Hmax).
  assert (∃ lo, lo ∈ q :: rest
                ∧ fold_left Qmin (calculateEffectivePrice <$> rest)
                    (calculateEffectivePrice q) = calculateEffectivePrice lo)
    as (lo & Hlo' & ->).
  { destruct Hmin as [->|[lo [-> Hin]]%list_elem_of_fmap].
    - exists q. split; [apply list_elem_of_here|done].
    - exists lo. split; [by apply list_elem_of_further|done]. }
  assert (∃ hi, hi ∈ q :: rest
                ∧ fold_left Qmax (calculateEffectivePrice <$> rest)
                    (calculateEffectivePrice q) = calculateEffectivePrice hi)
    as (hi & Hhi' & ->).
  { destruct Hmax as [->|[hi [-> Hin]]%list_elem_of_fmap].
    - exists q. split; [apply list_elem_of_here|done].
    - exists hi. split; [by apply list_elem_of_further|done]. }
  by exists lo, hi.
Qed.

Lemma fold_range (l : list Q) (lo hi : Q) :
  fold_left (λ acc x,
               Some (match acc with
                     | Some (lo, hi) => (Qmin lo x, Qmax hi x)
                     | None => (x, x)
                     end)) l (Some (lo, hi))
  = Some (fold_left Qmin l lo, fold_left Qmax l hi).
Proof. revert lo hi. induction l as [|x l IH]; intros lo hi; simpl; [done|apply IH]. Qed.

(** X24: getPriceRange computes in one pass what getMinEffectivePrice and
    getMaxEffectivePrice reply; the lower end is never above the upper one,
    and an empty catalogue gives the range from 0 to 0. *)
Theorem getPriceRange_is_min_and_max catalog :
  getPriceRange catalog = (getMinEffectivePrice catalog, getMaxEffectivePrice catalog)
  ∧ (getPriceRange catalog).1 <= (getPriceRange catalog).2
  ∧ getPriceRange [] = (0, 0).
Proof.
  assert (Heq : getPriceRange catalog
                = (getMinEffectivePrice catalog, getMaxEffectivePrice catalog)).
  { destruct catalog as [|q rest]; [done|].
    rewrite getMinEffectivePrice_cons, getMaxEffectivePrice_cons.
    unfold getPriceRange. simpl. by rewrite fold_range. }
  split; [done|]. split; [|done]. rewrite Heq. simpl.
  destruct catalog as [|q rest]; [done|].
  destruct (price_between (q :: rest) q (list_elem_of_here _ _)) as [Hlo Hhi].
  by apply Qle_trans with (calculateEffectivePrice q).
Qed.

(** X25: the price the cart charges for a product whose sale is not negative is
    the catalogue's effective price, so it lies within the price range the
    catalogue advertises. *)
Theorem cart_price_within_price_range catalog p :
  p ∈ catalog →
  0 <= Product.sale p →
  effectivePrice p == calculateEffectivePrice p
  ∧ (getPriceRange catalog).1 <= effectivePrice p
  ∧ effectivePrice p <= (getPriceRange catalog).2.
Proof.
  intros Hp Hs.
  assert (Heq : effectivePrice p == calculateEffectivePrice p)
    by (by apply effectivePrice_spec).
  split; [done|]. rewrite Heq.
  destruct catalog as [|q rest]; [by apply elem_of_nil in Hp|].
  unfold getPriceRange. simpl. rewrite fold_range. simpl.
  rewrite <- getMinEffectivePrice_cons, <- getMaxEffectivePrice_cons.
  by apply price_between.
Qed.

(** ** addToCart: the merge *)

Lemma addToCart_runs isValid db userId fresh items checked products :
  items ≠ [] →
  validateItems isValid (Products db) items = inr checked →
  addItems (Products db) (Cart.products (startCart db userId fresh)) checked
  = inr products →
  Forall (λ line, validItem line = true) products →
  let doc := preSave (Products db)
               (Cart.mk (Cart._id (startCart db userId fresh))
                  (Cart.userId (startCart db userId fresh)) products
                  (Cart.totalPrice (startCart db userId fresh))) in
  addToCart isValid db userId fresh items
  = (mkDB (Products db) (writeCart doc (Carts db)) (Orders db),
     Json 201 (CartView.mk (formatProducts (Products db) (Cart.products doc))
                 (Cart.totalPrice doc)))
  ∧ findOne userId (writeCart doc (Carts db)) = Some doc.
Proof.
  intros Hne Hv Hadd Hvalid doc.
  set (doc0 := Cart.mk (Cart._id (startCart db userId fresh))
                 (Cart.userId (startCart db userId fresh)) products
                 (Cart.totalPrice (startCart db userId fresh))).
  assert (Hsave : save db doc0
                  = inr (mkDB (Products db) (writeCart doc (Carts db)) (Orders db), doc)).
  { unfold save. simpl. apply forallb_Forall in Hvalid. by rewrite Hvalid. }
  destruct (findOne_save db doc0
              (mkDB (Products db) (writeCart doc (Carts db)) (Orders db)) doc)
    as (_ & _ & Hfind); [|exact Hsave|].
  { simpl. rewrite startCart_userId. intros c0 Hc0. unfold startCart. by rewrite Hc0. }
  simpl in Hfind. rewrite startCart_userId in Hfind.
  split; [|done].
  unfold addToCart. fold (startCart db userId fresh).
  destruct items as [|first rest]; [done|]. rewrite Hv, Hadd. fold doc0.
  rewrite Hsave. simpl. by rewrite Hfind.
Qed.

Lemma validateItem_hex_nonempty isValid catalog item c :
  validateItem isValid catalog item = inr c →
  nonempty (Color.hex (Checked.color c)) = true.
Proof.
  unfold validateItem.
  destruct (negb (isValid (Item.id item)) || Qlt_bool (Item.quantity item) 1); [done|].
  destruct (findById (Item.id item) catalog) as [product|]; [|done].
  destruct (or_else _ _) as [hex|] eqn:Hc; simpl; [|done].
  destruct (nonempty hex) eqn:Hne; simpl; [|done].
  destruct (findByHex hex (Product.colors product)) as [v|] eqn:Hv; [|done].
  intros [= <-]. simpl. destruct (findByHex_Some _ _ _ Hv) as [_ ->]. done.
Qed.

Lemma storedLines_start db userId fresh :
  Cart.products (startCart db userId fresh) = storedLines db userId.
Proof. unfold startCart, storedLines. by destruct (findOne userId (Carts db)). Qed.

Lemma lineQuantity_start db userId id hex :
  lineQuantity db userId id hex
  = CartItem.quantity
      <$> (snd <$> list_find (λ item, lineKey item = (id, hex)) (storedLines db userId)).
Proof.
  unfold storedLines. destruct (findOne userId (Carts db)) as [cart|] eqn:Hcart.
  - by apply lineQuantity_stored.
  - unfold lineQuantity. by rewrite Hcart.
Qed.

(** X4: where no product lists two variants under one color name, adding one
    valid item, its id in printed form, of a variant with at least one unit
    in stock replies 201 and leaves the line for that (product, hex) at the
    sum of what it held and the requested quantity clamped to the stock,
    capped at the stock.  (For another spelling of the id line 137 finds no
    line to merge into.) *)
Theorem addToCart_sets_line_to_capped_sum isValid db userId fresh item c stock :
  isPrinted (Item.id item) = true →
  distinctNames (Products db) →
  validateItem isValid (Products db) item = inr c →
  variantStock (Products db) (Checked.id c) (Color.hex (Checked.color c)) = Some stock →
  1 <= stock →
  nonempty (Color.name (Checked.color c)) = true →
  Forall (λ line, validItem line = true) (storedLines db userId) →
  let held := lineQuantity db userId (Checked.id c) (Color.hex (Checked.color c)) in
  let result := addToCart isValid db userId fresh [item] in
  ∃ view quantity,
    result.2 = Json 201 view
    ∧ lineQuantity result.1 userId (Checked.id c) (Color.hex (Checked.color c))
      = Some quantity
    ∧ quantity == Qmin (default 0 held + Qmin (Item.quantity item) stock) stock.
Proof.
  intros _ Hnames Hc Hstock Hone Hname Hvalid held result. subst held result.
  destruct (validateItem_accepts isValid _ _ _ Hc)
    as (_ & Hq & Hid & Hquantity & product & v & Hp & Hv & Hcolor).
  rewrite <- Hid in Hp.
  pose proof (validateItem_hex_nonempty isValid _ _ _ Hc) as Hhex.
  assert (Hs : Variant.quantity v = stock).
  { unfold variantStock in Hstock. rewrite Hp in Hstock. simpl in Hstock.
    rewrite Hv in Hstock. simpl in Hstock. by injection Hstock. }
  assert (Havail : availableQuantity product (Checked.color c) = stock).
  { rewrite Hcolor, <- Hs.
    apply (availableQuantity_chosen product (Color.hex (Checked.color c))); [|done].
    apply Hnames. by apply (findById_Some _ _ _ Hp). }
  set (final := Qmin (Item.quantity item) stock).
  assert (Hfinal : 1 <= final) by (by apply Q.min_glb).
  assert (Hfinal0 : Qeq_bool final 0 = false).
  { destruct (Qeq_bool final 0) eqn:E; [|done]. apply Qeq_bool_iff in E.
    rewrite E in Hfinal. by destruct (Qle_not_lt _ _ Hfinal). }
  rewrite (lineQuantity_start db).
  set (key := λ item0 : CartItem.t,
                lineKey item0 = (Checked.id c, Color.hex (Checked.color c))).
  assert (Hadd : ∃ products,
             addItems (Products db) (storedLines db userId) [c] = inr products
             ∧ Forall (λ line, validItem line = true) products
             ∧ ∃ quantity,
                 CartItem.quantity <$> (snd <$> list_find key products) = Some quantity
                 ∧ quantity
                   == Qmin (default 0 (CartItem.quantity
                                         <$> (snd <$> list_find key (storedLines db userId)))
                            + final) stock).
  { simpl. unfold addItem. rewrite Hp, Havail, Hquantity. fold final.
    rewrite Hfinal0, find_key_pair.
    change (list_find _ (storedLines db userId))
      with (list_find key (storedLines db userId)).
    destruct (list_find key (storedLines db userId)) as [[i existing]|] eqn:Hfind.
    - pose proof Hfind as (Hi & Hkey & Hmin)%list_find_Some.
      eexists. split; [done|]. split.
      + apply Forall_insert; [done|].
        rewrite Forall_forall in Hvalid.
        pose proof (Hvalid existing (list_elem_of_lookup_2 _ _ _ Hi)) as He.
        unfold validItem in *. simpl.
        apply andb_true_iff in He as [-> He]. simpl. apply Qle_bool_iff.
        apply Q.min_glb; [|done]. apply Qle_bool_iff in He.
        apply Qle_trans with (CartItem.quantity existing); [done|].
        rewrite <- Qplus_0_r at 1. apply Qplus_le_r.
        apply Qle_trans with 1; [done|exact Hfinal].
      + eexists. split; [|reflexivity].
        set (merged := CartItem.mk (CartItem.id existing) (CartItem.color existing)
                         (Qmin (CartItem.quantity existing + final) stock)
                         (CartItem.subtotal existing)).
        rewrite (proj2 (list_find_insert_Some key (storedLines db userId) i i
                          merged merged)); [done|].
        right. left. split; [done|]. split; [done|].
        split; [by eapply lookup_lt_Some|]. split; [exact Hkey|exact Hmin].
    - eexists. split; [done|]. split.
      + apply Forall_app. split; [done|]. constructor; [|done].
        unfold validItem. simpl. rewrite Hname, Hhex. simpl. by apply Qle_bool_iff.
      + exists final. split.
        * rewrite list_find_app_r by done. simpl. unfold key at 1.
          by rewrite decide_True.
        * simpl. rewrite Qplus_0_l. symmetry. apply Q.min_l. apply Q.le_min_r. }
  destruct Hadd as (products & Hadd & Hprods & quantity & Hfound & Hquant).
  rewrite <- storedLines_start with (fresh := fresh) in Hadd.
  destruct (addToCart_runs isValid db userId fresh [item] [c] products)
    as [Hok Hfind]; [done| |done|done|].
  { simpl. by rewrite Hc. }
  rewrite Hok. simpl. eexists _, quantity. split; [done|]. split; [|done].
  rewrite (lineQuantity_written _ _ _ _ _ _ _ Hfind), preSave_products. simpl.
  rewrite find_key_afterHook. exact Hfound.
Qed.

(** * The scenarios *)

Import Sample Scenario.

Local Ltac evaluate := vm_compute; first [reflexivity | discriminate | by intros [=]].

(** C1, as stated, fails: Alice's cart was saved with total 270; once the
    list price is 200 getUserCart returns the line at subtotal 540 and still
    the stored total 270. *)
Lemma getUserCart_total_is_stale : ¬ totalMatchesSubtotals repriced alice.
Proof. intros H. specialize (H _ _ eq_refl). vm_compute in H. discriminate. Qed.

Lemma getUserCart_returns_saved_total_witness :
  ∃ view,
    getUserCart repriced alice = Json 200 view
    ∧ CartView.totalPrice view
      == sumQ (omap (recomputed [chair 3 None]) (Cart.products unsaved))
    ∧ Forall2 (λ line f,
                 ∃ p v, resolved (Products repriced) line = Some (p, v)
                        ∧ Formatted.quantity f
                          == Qmin (CartItem.quantity line) (Variant.quantity v)
                        ∧ Formatted.price f = effectivePrice p
                        ∧ Formatted.subtotal f
                          == toFixed2 (Qmin (CartItem.quantity line) (Variant.quantity v)
                                       * effectivePrice p))
              (filter (λ line, is_Some (resolved (Products repriced) line))
                      (Cart.products unsaved))
              (CartView.products view).
Proof.
  apply (getUserCart_returns_saved_total repriced alice [chair 3 None] unsaved).
  vm_compute. reflexivity.
Defined.

(** C5 at its failing input: the stool at price 1.11 with sale 10, ten
    units asked for and ten in stock.  The hook rounds the unit price to
    1.00 before it multiplies and stores 10 * 1.00 = 10; the formatter
    multiplies first and rounds the product, 9.99.  The two subtotals of
    the one line differ. *)
Theorem hook_formatter_disagree :
  toFixed2 (effectivePrice stool) == 1
  ∧ hookSubtotal stool 10 == 10
  ∧ (∃ f, formatProductData (Some stool) 10 red = Some f
          ∧ Formatted.quantity f == 10
          ∧ Formatted.subtotal f == 9.99)
  ∧ ¬ sameSubtotal stool 10 red.
Proof.
  split; [evaluate|]. split; [evaluate|]. split.
  - eexists. split; [reflexivity|]. split; evaluate.
  - intros H. specialize (H _ eq_refl). vm_compute in H. discriminate.
Qed.

(** C9, as stated, fails: the line of the product that is gone from the
    catalogue is still in the cart after the hook. *)
Lemma preSave_keeps_unresolved_line : ¬ discardsUnresolved [chair 3 None] orphanCart.
Proof.
  intros H. destruct (H (CartItem.mk goneId red 2 (Some 50))) as [p Hp].
  - vm_compute. apply list_elem_of_here.
  - vm_compute in Hp. discriminate.
Qed.

Lemma addToCart_validation_atomic_witness :
  ∃ e' bad,
    bad ∈ batch
    ∧ validateItem isHex24 [chair 3 None] bad = inl e'
    ∧ ∀ carts orders userId fresh,
        addToCart isHex24 (mkDB [chair 3 None] carts orders) userId fresh batch
        = (mkDB [chair 3 None] carts orders, Next (Refused e')).
Proof.
  apply (addToCart_validation_atomic isHex24 [chair 3 None] batch
           (Item.mk chairId 0 (Some "#ff0000"))).
  - apply list_elem_of_further, list_elem_of_here.
  - intros (_ & Hq & _). vm_compute in Hq. by apply Hq.
Defined.

(** C2 at its failing inputs.  The stock check reads the product-level
    [quantity], not the stock of the line's color variant: five red chairs
    are accepted with one in stock (whatever the driver makes of line 63),
    and one red chair is refused with ten in stock because the product-level
    quantity is 0. *)
Theorem placeOrder_stock_check_reads_product_quantity bare :
  (variantStock (Products oversold) chairId "#ff0000" = Some 1
   ∧ lineQuantity oversold alice chairId "#ff0000" = Some 5
   ∧ ∃ order, (placeOrder isHex24 bare oversold alice body).2 = Json 201 order)
  ∧ (variantStock (Products inStock) chairId "#ff0000" = Some 10
     ∧ lineQuantity inStock alice chairId "#ff0000" = Some 1
     ∧ placeOrder isHex24 bare inStock alice body
       = (inStock, Next (Refused (mkAppError (NotEnoughStock "Chair" 0 1) 400 FAIL)))).
Proof.
  split; (split; [evaluate|]); (split; [evaluate|]).
  - eexists. vm_compute. reflexivity.
  - vm_compute. reflexivity.
Qed.

(** C3 at its failing input, the checkout scenario of the spec, under both
    readings of the bare id of line 63: the order is created with total
    270, but the stock of the purchased red variant is not decremented and
    Alice's cart is not deleted. *)
Theorem placeOrder_scenario_keeps_cart_and_variant_stock :
  checkoutOutcome bareAsId ∧ checkoutOutcome bareAsNothing.
Proof.
  split; unfold checkoutOutcome; cbv zeta;
    (split; [eexists; split; [vm_compute; reflexivity|evaluate]|]);
    repeat split; evaluate.
Qed.

(** C4 at its failing input: for the line of quantity 3 and subtotal 270
    the order item is stored with price 270, the whole subtotal, where the
    unit price is 90; the order view then shows 270 * 3 = 810 as the total
    of the item. *)
Theorem placeOrder_stores_subtotal_as_price bare :
  ∃ order item,
    (placeOrder isHex24 bare checkout alice body).2 = Json 201 order
    ∧ Order.orderItems order = [item]
    ∧ OrderItem.id item = chairId
    ∧ OrderItem.name item = "Chair"
    ∧ OrderItem.color item = red
    ∧ OrderItem.quantity item = 3
    ∧ OrderItem.price item = Some 270
    ∧ orderItemTotal item = Some (toFixed2 (270 * 3))
    ∧ toFixed2 (270 * 3) == 810.
Proof.
  eexists _, _. split; [vm_compute; reflexivity|].
  repeat split; evaluate.
Qed.

(** C6 at its failing inputs: Alice's line asks for five red chairs and
    one is in stock.  The call succeeds and writes an order, with no
    product-level quantity and with a product-level quantity of 7, which it
    takes down to 2. *)
Theorem placeOrder_oversold_cart_is_ordered bare :
  let result := placeOrder isHex24 bare oversold alice body in
  let counted := placeOrder isHex24 bare oversoldCounted alice body in
  (variantStock (Products oversold) chairId "#ff0000" = Some 1
   ∧ lineQuantity oversold alice chairId "#ff0000" = Some 5
   ∧ Orders oversold = []
   ∧ ∃ order, result.2 = Json 201 order ∧ Orders result.1 = [order])
  ∧ (variantStock (Products oversoldCounted) chairId "#ff0000" = Some 1
     ∧ lineQuantity oversoldCounted alice chairId "#ff0000" = Some 5
     ∧ Orders oversoldCounted = []
     ∧ (∃ order, counted.2 = Json 201 order ∧ Orders counted.1 = [order])
     ∧ Product.quantity <$> findById chairId (Products oversoldCounted)
       = Some (Some 7)
     ∧ Product.quantity <$> findById chairId (Products counted.1)
       = Some (Some 2)).
Proof.
  cbv zeta. split.
  - do 3 (split; [evaluate|]). eexists; split; vm_compute; reflexivity.
  - do 3 (split; [evaluate|]).
    split; [eexists; split; vm_compute; reflexivity|]. split; evaluate.
Qed.

(** C7 at its failing input: the sofa lists two shades under the name
    Brown; Alice's cart holds one unit of the second shade, of which one is
    in stock.  Adding five more of that shade merges into the one line, but
    with the stock of the first shade: the line goes to 6, not to 1. *)
Theorem addToCart_merge_reads_stock_by_name :
  let db := mkDB [sofa] [sofaCart] [] in
  let db' := (addToCart isHex24 db alice cartB secondBrown).1 in
  variantStock (Products db) sofaId "#a0522d" = Some 1
  ∧ lineQuantity db alice sofaId "#a0522d" = Some 1
  ∧ lineQuantity db' alice sofaId "#a0522d" = Some 6
  ∧ (∃ cart, findOne alice (Carts db') = Some cart
             ∧ length (Cart.products cart) = 1%nat).
Proof.
  cbv zeta. repeat split; try evaluate.
  eexists. split; vm_compute; reflexivity.
Qed.

(** C8 at its failing input: on an empty store of carts the request for
    five units of the second brown shade, one in stock, stores a line of
    quantity 5; the reply shows the line clamped to 1. *)
Theorem addToCart_exceeds_chosen_variant_stock :
  let result := addToCart isHex24 (empty [sofa]) alice cartA secondBrown in
  variantStock [sofa] sofaId "#a0522d" = Some 1
  ∧ lineQuantity result.1 alice sofaId "#a0522d" = Some 5
  ∧ ∃ view, result.2 = Json 201 view
            ∧ Formatted.quantity <$> CartView.products view = [1].
Proof.
  cbv zeta. split; [evaluate|]. split; [evaluate|].
  eexists. split; vm_compute; reflexivity.
Qed.

(** * The further properties on the scenarios *)

Local Ltac one_line :=
  vm_compute; repeat first [apply NoDup_singleton | apply NoDup_nil_2].

Lemma addToCart_keeps_lines_within_stock_witness :
  Forall (withinStock (Products (addToCart isHex24 added alice cartB
                                   [Item.mk chairId 2 None]).1))
         (storedLines (addToCart isHex24 added alice cartB
                         [Item.mk chairId 2 None]).1 alice).
Proof.
  apply (addToCart_keeps_lines_within_stock isHex24 added alice cartB
           [Item.mk chairId 2 None]).
  - intros p Hp. vm_compute in Hp. apply list_elem_of_singleton in Hp as ->. one_line.
  - vm_compute. repeat constructor. intros p v Hp Hv.
    vm_compute in Hp. injection Hp as <-. vm_compute in Hv. injection Hv as <-.
    evaluate.
Defined.

Lemma addToCart_one_line_per_key_witness :
  ∃ cart', findOne alice (Carts (addToCart isHex24 added alice cartB
                                   [Item.mk chairId 2 None]).1) = Some cart'
           ∧ NoDup (lineKey <$> Cart.products cart').
Proof.
  eexists. split; [vm_compute; reflexivity|].
  apply (addToCart_one_line_per_key isHex24 added alice cartB [Item.mk chairId 2 None]).
  - repeat constructor.
  - intros cart Hcart. vm_compute in Hcart. injection Hcart as <-. one_line.
  - vm_compute. reflexivity.
Defined.

Lemma addToCart_success_stores_priced_cart_witness :
  ∃ db' view,
    addToCart isHex24 (empty [chair 3 None]) alice cartA
      [Item.mk chairId 5 (Some "#ff0000")] = (db', Json 201 view)
    ∧ Products db' = [chair 3 None]
    ∧ ∃ doc, findOne alice (Carts db') = Some doc
             ∧ preSave (Products db') doc = doc
             ∧ CartView.totalPrice view = Cart.totalPrice doc.
Proof.
  eexists _, _. split; [vm_compute; reflexivity|].
  edestruct (addToCart_success_stores_priced_cart isHex24 (empty [chair 3 None]) alice
               cartA [Item.mk chairId 5 (Some "#ff0000")])
    as (_ & Hp & _ & doc & Hd & Hfix & _ & Htotal & _);
    [vm_compute; reflexivity|].
  split; [exact Hp|]. exists doc. by repeat split.
Defined.

Lemma addToCart_touches_only_own_cart_witness :
  let db := mkDB [chair 3 (Some 3)] [bobCart] [] in
  let db' := (addToCart isHex24 db alice cartA [Item.mk chairId 1 None]).1 in
  Products db' = Products db ∧ Orders db' = Orders db
  ∧ findOne bob (Carts db') = findOne bob (Carts db).
Proof.
  apply (addToCart_touches_only_own_cart isHex24 (mkDB [chair 3 (Some 3)] [bobCart] [])
           alice cartA [Item.mk chairId 1 None] bob).
  - one_line.
  - vm_compute. intros H. apply list_elem_of_singleton in H. discriminate.
  - discriminate.
Defined.

Lemma updateCart_overwrites_quantity_witness :
  let result := updateCart isHex24 added alice (Patch.mk chairId 7 (Some "#ff0000")) in
  (∃ data, result.2 = Updated 200 data
           ∧ findOne alice (Carts result.1) = Some (CartDoc.cart data))
  ∧ lineQuantity result.1 alice chairId "#ff0000" = Some 7.
Proof.
  apply (updateCart_overwrites_quantity isHex24 added alice
           (Patch.mk chairId 7 (Some "#ff0000")) "#ff0000" 3).
  - reflexivity.
  - evaluate.
  - reflexivity.
  - vm_compute. reflexivity.
  - vm_compute. repeat constructor.
Defined.

Lemma updateCart_zero_removes_line_witness :
  let result := updateCart isHex24 added alice (Patch.mk chairId 0 None) in
  (∃ data, result.2 = Updated 200 data
           ∧ findOne alice (Carts result.1) = Some (CartDoc.cart data))
  ∧ lineQuantity result.1 alice chairId "#ff0000" = None
  ∧ S (length (storedLines result.1 alice)) = length (storedLines added alice).
Proof.
  apply (updateCart_zero_removes_line isHex24 added alice (Patch.mk chairId 0 None)
           "#ff0000" 3).
  - reflexivity.
  - reflexivity.
  - reflexivity.
  - vm_compute. reflexivity.
  - vm_compute. repeat constructor.
  - one_line.
Defined.

Lemma updateCart_fraction_is_thrown_witness :
  updateCart isHex24 added alice (Patch.mk chairId 0.5 (Some "#ff0000"))
  = (added, UpdateThrown ValidationError).
Proof.
  apply (updateCart_fraction_is_thrown isHex24 added alice
           (Patch.mk chairId 0.5 (Some "#ff0000")) "#ff0000" 3).
  - reflexivity.
  - evaluate.
  - evaluate.
  - reflexivity.
  - vm_compute. reflexivity.
Defined.

Lemma updateCart_keeps_other_lines_witness :
  let db := mkDB [chair 3 None; sofa] [Cart.mk cartA alice
              [CartItem.mk chairId red 1 (Some 90);
               CartItem.mk sofaId (Color.mk "Brown" "#8b4513") 2 (Some 1000)] 1090] [] in
  lineQuantity (updateCart isHex24 db alice (Patch.mk chairId 3 None)).1 alice
    sofaId "#8b4513"
  = lineQuantity db alice sofaId "#8b4513".
Proof.
  apply (updateCart_keeps_other_lines isHex24).
  intros hex Hhex. vm_compute in Hhex. injection Hhex as <-. discriminate.
Defined.

Lemma updateCart_one_line_per_key_witness :
  NoDup (lineKey <$> storedLines
           (updateCart isHex24 added alice (Patch.mk chairId 2 None)).1 alice).
Proof.
  apply (updateCart_one_line_per_key isHex24 added alice (Patch.mk chairId 2 None)).
  one_line.
Defined.

Lemma updateCart_touches_only_own_cart_witness :
  let db' := (updateCart isHex24 checkout alice (Patch.mk chairId 1 None)).1 in
  Products db' = Products checkout ∧ Orders db' = Orders checkout
  ∧ findOne bob (Carts db') = findOne bob (Carts checkout).
Proof.
  apply (updateCart_touches_only_own_cart isHex24 checkout alice
           (Patch.mk chairId 1 None) bob).
  - vm_compute. apply NoDup_cons. split; [|apply NoDup_singleton].
    intros H. apply list_elem_of_singleton in H. discriminate.
  - discriminate.
Defined.

Lemma placeOrder_total_is_rounded_saved_total_witness :
  ∃ order,
    (placeOrder isHex24 bareAsId repriced alice body).2 = Json 201 order
    ∧ Order.totalAmount order
      == toFixed2 (sumQ (omap (recomputed [chair 3 None]) (Cart.products unsaved)))
    ∧ cents (Order.totalAmount order).
Proof.
  eexists. split; [vm_compute; reflexivity|].
  eapply (placeOrder_total_is_rounded_saved_total isHex24 bareAsId repriced alice body
            [chair 3 None] unsaved).
  - vm_compute. reflexivity.
  - vm_compute. reflexivity.
Defined.

Lemma placeOrder_order_snapshot_witness :
  ∃ db' order,
    placeOrder isHex24 bareAsId checkout alice body = (db', Json 201 order)
    ∧ Orders db' = Orders checkout ++ [order]
    ∧ Order.userId order = alice
    ∧ length (Order.orderItems order) = 1%nat.
Proof.
  eexists _, _. split; [vm_compute; reflexivity|].
  edestruct (placeOrder_order_snapshot isHex24 bareAsId checkout alice body)
    as (_ & Ho & Hu & _ & _ & _ & cart & Hc & Hlen & _); [vm_compute; reflexivity|].
  split; [exact Ho|]. split; [exact Hu|]. vm_compute. reflexivity.
Defined.

Lemma placeOrder_decrements_product_quantity_witness :
  ∃ db' order,
    placeOrder isHex24 bareAsId checkout alice body = (db', Json 201 order)
    ∧ productLevel (Products db') chairId
      == productLevel (Products checkout) chairId
         - orderedOf chairId (Cart.products (chairCart 3 270)).
Proof.
  eexists _, _. split; [vm_compute; reflexivity|].
  eapply (placeOrder_decrements_product_quantity isHex24 bareAsId checkout alice body).
  - vm_compute. reflexivity.
  - vm_compute. reflexivity.
  - vm_compute. by eexists.
Defined.

Lemma placeOrder_refused_unchanged_witness :
  (placeOrder isHex24 bareAsId inStock alice body).1 = inStock.
Proof.
  apply (placeOrder_refused_unchanged isHex24 bareAsId inStock alice body
           (placeOrder isHex24 bareAsId inStock alice body).1
           (Refused (mkAppError (NotEnoughStock "Chair" 0 1) 400 FAIL))).
  vm_compute. reflexivity.
Defined.

Lemma checkStock_refuses_witness :
  ∃ item p, item ∈ populate (Products inStock) <$> Cart.products (chairCart 1 90)
            ∧ Populated.id item = Some p
            ∧ Product.name p = "Chair"
            ∧ Product.quantity p = Some 0
            ∧ Populated.quantity item = 1
            ∧ 0 < 1.
Proof.
  apply (checkStock_refuses (populate (Products inStock) <$> Cart.products (chairCart 1 90))
           "Chair" 0 1).
  vm_compute. reflexivity.
Defined.

Lemma getUserCart_shows_lines_within_stock_witness :
  ∃ view cart,
    getUserCart repriced alice = Json 200 view
    ∧ findOne alice (Carts repriced) = Some cart
    ∧ CartView.totalPrice view = Cart.totalPrice cart
    ∧ (length (CartView.products view) ≤ length (Cart.products cart))%nat.
Proof.
  eexists. 
  edestruct (getUserCart_shows_lines_within_stock repriced alice)
    as (_ & cart & Hc & Ht & Hlen & _); [vm_compute; reflexivity|].
  exists cart. split; [vm_compute; reflexivity|]. by repeat split.
Defined.

Lemma price_range_brackets_catalogue_witness :
  getMinEffectivePrice [chair 3 None; sofa] <= calculateEffectivePrice sofa
  ∧ calculateEffectivePrice sofa <= getMaxEffectivePrice [chair 3 None; sofa]
  ∧ ∃ lo hi, lo ∈ [chair 3 None; sofa] ∧ hi ∈ [chair 3 None; sofa]
             ∧ getMinEffectivePrice [chair 3 None; sofa] = calculateEffectivePrice lo
             ∧ getMaxEffectivePrice [chair 3 None; sofa] = calculateEffectivePrice hi.
Proof.
  apply (price_range_brackets_catalogue [chair 3 None; sofa] sofa).
  apply list_elem_of_further, list_elem_of_here.
Defined.

Lemma cart_price_within_price_range_witness :
  effectivePrice (chair 3 None) == calculateEffectivePrice (chair 3 None)
  ∧ (getPriceRange [chair 3 None; sofa]).1 <= effectivePrice (chair 3 None)
  ∧ effectivePrice (chair 3 None) <= (getPriceRange [chair 3 None; sofa]).2.
Proof.
  apply (cart_price_within_price_range [chair 3 None; sofa] (chair 3 None)).
  - apply list_elem_of_here.
  - evaluate.
Defined.

Lemma addToCart_sets_line_to_capped_sum_witness :
  let db := mkDB [chair 5 None] [chairCart 2 180] [] in
  let result := addToCart isHex24 db alice cartB [Item.mk chairId 4 None] in
  ∃ view quantity,
    result.2 = Json 201 view
    ∧ lineQuantity result.1 alice chairId "#ff0000" = Some quantity
    ∧ quantity == Qmin (2 + Qmin 4 5) 5.
Proof.
  apply (addToCart_sets_line_to_capped_sum isHex24
           (mkDB [chair 5 None] [chairCart 2 180] []) alice cartB
           (Item.mk chairId 4 None) (Checked.mk chairId 4 red) 5).
  - reflexivity.
  - intros p Hp. vm_compute in Hp. apply list_elem_of_singleton in Hp as ->. one_line.
  - reflexivity.
  - reflexivity.
  - evaluate.
  - reflexivity.
  - vm_compute. repeat constructor.
Defined.
